(** * Inner-core growth with supercooling (Huguet et al. 2018)

    A shallow embedding of [supercooling.py]: the class [Evolution], its
    profile functions, the growth-rate solve, the feedback law and the two
    time-stepping loops, followed by the properties of the engine.

    Modelling choices.
    - A Python/NumPy float is a real number of [R] and division is the total
      division of [R]: rounding, overflow and NaN are outside the model, and
      so is the [ZeroDivisionError] of a zero scalar divisor. The divisors
      are [gamma] and [longueur] in the profiles, [Mc] and [cp] in [dTcmb].
    - A NumPy array is a [list R]; reading and writing go through [getitem]
      and [setitem], which accept negative indices as NumPy does and raise
      [IndexError] out of range.
    - [__init__] gives [np.linspace] its sample count as the float [1e3];
      NumPy converts it or raises [TypeError] according to its version, which
      is a parameter of [__init__].
    - [scipy.optimize.fsolve] is not code of this repository: it is a
      variable of the section that holds the engine.
    - Methods that mutate [self], print or raise live in the monad [M]:
      standard output is threaded through, an exception stops the run. *)

From Stdlib Require Import Reals Lra ZArith String.
From stdpp Require Import base list.

Open Scope R_scope.

(** ** Exceptions, standard output and the monad of methods *)

Inductive exn : Type :=
| IndexError
| TypeError
| ValueError.

Inductive Res (A : Type) : Type :=
| Ok (a : A)
| Raise (e : exn).

Arguments Ok {A} a.
Arguments Raise {A} e.

(** One line written by [print(ierr, a, msg)]. *)
Record Printed : Type := mkPrinted {
  p_ierr : Z;
  p_a : R * R;
  p_msg : string
}.

Definition Stdout : Type := list Printed.

Definition M (A : Type) : Type := Stdout -> Res A * Stdout.

Definition ret {A : Type} (a : A) : M A := fun out => (Ok a, out).

Definition bind {A B : Type} (m : M A) (k : A -> M B) : M B :=
  fun out =>
    match m out with
    | (Ok a, out') => k a out'
    | (Raise e, out') => (Raise e, out')
    end.

Definition lift {A : Type} (r : Res A) : M A := fun out => (r, out).

Definition print (l : Printed) : M unit := fun out => (Ok tt, out ++ [l]).

Notation "x <- c1 ;; c2" := (bind c1 (fun x => c2))
  (at level 100, c1 at next level, right associativity).

(** [for x in xs: s = body(s, x)] *)
Fixpoint for_each {A S : Type} (xs : list A) (body : S -> A -> M S) (s : S)
  : M S :=
  match xs with
  | [] => ret s
  | x :: xs' => s' <- body s x ;; for_each xs' body s'
  end.

(** ** NumPy arrays *)

(** The position a NumPy index denotes in an array of [n] elements. *)
Definition norm_index (n : nat) (i : Z) : option nat :=
  if (0 <=? i)%Z then
    if (i <? Z.of_nat n)%Z then Some (Z.to_nat i) else None
  else
    if (- Z.of_nat n <=? i)%Z then Some (Z.to_nat (Z.of_nat n + i)) else None.

(** [a[i]] *)
Definition getitem (a : list R) (i : Z) : Res R :=
  match norm_index (length a) i with
  | Some k =>
      match a !! k with
      | Some v => Ok v
      | None => Raise IndexError
      end
  | None => Raise IndexError
  end.

(** [a[i] = v] *)
Definition setitem (a : list R) (i : Z) (v : R) : Res (list R) :=
  match norm_index (length a) i with
  | Some k => Ok (<[k:=v]> a)
  | None => Raise IndexError
  end.

(** [np.zeros_like(a)] *)
Definition zeros_like (a : list R) : list R := replicate (length a) 0.

(** [np.linspace(start, stop, num)], end point included. *)
Definition linspace (start stop : R) (num : nat) : list R :=
  (fun k : nat => start + INR k * ((stop - start) / INR (num - 1)))
    <$> seq 0 num.

(** How [np.linspace] reads a sample count that is a Python float: NumPy up
    to 1.17 converts it with [int], NumPy 1.18 and later hand it to
    [operator.index], which refuses a float. *)
Inductive NumPy : Type :=
| np_int_count
| np_index_count.

(** [np.linspace(start, stop, num)] with a float for [num]. [int] truncates
    towards zero, and a negative count is refused. *)
Definition linspace_float (np : NumPy) (start stop num : R) : Res (list R) :=
  match np with
  | np_index_count => Raise TypeError
  | np_int_count =>
      if Rle_dec num (-1) then Raise ValueError
      else Ok (linspace start stop (Z.to_nat (Int_part num)))
  end.

(** [enumerate(a)] *)
Definition enumerate (a : list R) : list (Z * R) :=
  zip (Z.of_nat <$> seq 0 (length a)) a.

(** ** The class [Evolution] *)

Record Evolution : Type := mkEvolution {
  Qcmb : R;
  delta_T : R;
  longueur : R;
  rc : R;
  G : R;
  rhol : R;
  rho0 : R;
  u : R;
  cp : R;
  LFe : R;
  TFe0 : R;
  gamma : R;
  eta_c : R;
  Mc : R;
  Eg : R;
  time : list R;
  time_years : list R;
  dt : R;
  dric : list R;
  ric : list R;
  Tic : list R;
  supercooling : list R;
  Tis_center : list R;
  Tcmb : list R
}.

(** Assignment to one array attribute; every other attribute is kept. *)
Definition set_dric (self : Evolution) (a : list R) : Evolution :=
  mkEvolution (Qcmb self) (delta_T self) (longueur self) (rc self) (G self)
    (rhol self) (rho0 self) (u self) (cp self) (LFe self) (TFe0 self)
    (gamma self) (eta_c self) (Mc self) (Eg self) (time self)
    (time_years self) (dt self)
    a (ric self) (Tic self) (supercooling self) (Tis_center self) (Tcmb self).

Definition set_ric (self : Evolution) (a : list R) : Evolution :=
  mkEvolution (Qcmb self) (delta_T self) (longueur self) (rc self) (G self)
    (rhol self) (rho0 self) (u self) (cp self) (LFe self) (TFe0 self)
    (gamma self) (eta_c self) (Mc self) (Eg self) (time self)
    (time_years self) (dt self)
    (dric self) a (Tic self) (supercooling self) (Tis_center self) (Tcmb self).

Definition set_Tic (self : Evolution) (a : list R) : Evolution :=
  mkEvolution (Qcmb self) (delta_T self) (longueur self) (rc self) (G self)
    (rhol self) (rho0 self) (u self) (cp self) (LFe self) (TFe0 self)
    (gamma self) (eta_c self) (Mc self) (Eg self) (time self)
    (time_years self) (dt self)
    (dric self) (ric self) a (supercooling self) (Tis_center self) (Tcmb self).

Definition set_supercooling (self : Evolution) (a : list R) : Evolution :=
  mkEvolution (Qcmb self) (delta_T self) (longueur self) (rc self) (G self)
    (rhol self) (rho0 self) (u self) (cp self) (LFe self) (TFe0 self)
    (gamma self) (eta_c self) (Mc self) (Eg self) (time self)
    (time_years self) (dt self)
    (dric self) (ric self) (Tic self) a (Tis_center self) (Tcmb self).

Definition set_Tis_center (self : Evolution) (a : list R) : Evolution :=
  mkEvolution (Qcmb self) (delta_T self) (longueur self) (rc self) (G self)
    (rhol self) (rho0 self) (u self) (cp self) (LFe self) (TFe0 self)
    (gamma self) (eta_c self) (Mc self) (Eg self) (time self)
    (time_years self) (dt self)
    (dric self) (ric self) (Tic self) (supercooling self) a (Tcmb self).

Definition set_Tcmb (self : Evolution) (a : list R) : Evolution :=
  mkEvolution (Qcmb self) (delta_T self) (longueur self) (rc self) (G self)
    (rhol self) (rho0 self) (u self) (cp self) (LFe self) (TFe0 self)
    (gamma self) (eta_c self) (Mc self) (Eg self) (time self)
    (time_years self) (dt self)
    (dric self) (ric self) (Tic self) (supercooling self) (Tis_center self) a.


(** [self.arr[i] = v] for each of the six state arrays. *)
Definition store_dric (i : Z) (v : R) (self : Evolution) : M Evolution :=
  a <- lift (setitem (dric self) i v) ;; ret (set_dric self a).

Definition store_ric (i : Z) (v : R) (self : Evolution) : M Evolution :=
  a <- lift (setitem (ric self) i v) ;; ret (set_ric self a).

Definition store_Tic (i : Z) (v : R) (self : Evolution) : M Evolution :=
  a <- lift (setitem (Tic self) i v) ;; ret (set_Tic self a).

Definition store_supercooling (i : Z) (v : R) (self : Evolution)
  : M Evolution :=
  a <- lift (setitem (supercooling self) i v) ;; ret (set_supercooling self a).

Definition store_Tis_center (i : Z) (v : R) (self : Evolution)
  : M Evolution :=
  a <- lift (setitem (Tis_center self) i v) ;; ret (set_Tis_center self a).

Definition store_Tcmb (i : Z) (v : R) (self : Evolution) : M Evolution :=
  a <- lift (setitem (Tcmb self) i v) ;; ret (set_Tcmb self a).

(** [Evolution.__init__]: the constants of Huguet et al. 2018 and a grid
    over 500 years whose sample count is the float [1e3]; [np] is the NumPy
    the program runs on. *)
Definition __init__ (np : NumPy) (delta_T Qcmb : R) : M Evolution :=
  let year := 365.25 * 3600 * 24 in
  time <- lift (linspace_float np 0 (500 * year) 1e3) ;;
  t1 <- lift (getitem time 1) ;;
  t0 <- lift (getitem time 0) ;;
  ret {| Qcmb := Qcmb;
         delta_T := delta_T;
         longueur := 6500e3;
         rc := 3600e3;
         G := 1e-4;
         rhol := 12500;
         rho0 := 11900;
         u := 3e-4;
         cp := 785;
         LFe := 750e3;
         TFe0 := 6500;
         gamma := 1.5;
         eta_c := 0.79;
         Mc := 1.95e24;
         Eg := 3e5;
         time := time;
         time_years := (fun t => t / year) <$> time;
         dt := t1 - t0;
         dric := zeros_like time;
         ric := zeros_like time;
         Tic := zeros_like time;
         supercooling := zeros_like time;
         Tis_center := zeros_like time;
         Tcmb := zeros_like time |}.

(** [Evolution.reinitilization] *)
Definition reinitilization (self : Evolution) : M Evolution :=
  let self := set_dric self (zeros_like (time self)) in
  let self := set_ric self (zeros_like (time self)) in
  let self := set_Tic self (zeros_like (time self)) in
  let self := set_supercooling self (zeros_like (time self)) in
  let self := set_Tis_center self (zeros_like (time self)) in
  let self := set_Tcmb self (zeros_like (time self)) in
  ret self.

(** [Evolution.T_is]: the isentrope through the center temperature [T0]. *)
Definition T_is (self : Evolution) (radius T0 : R) : R :=
  T0 * exp (- (radius ^ 2) / longueur self ^ 2).

(** [Evolution.T_Fe]: the melting temperature of iron; [xi] defaults to 0. *)
Definition T_Fe (self : Evolution) (radius xi : R) : R :=
  TFe0 self
  * exp (-2 * (1 - 1 / 3 / gamma self) * radius ^ 2 / longueur self ^ 2)
  - xi.

(** The residuals [func] of [icoregrowth] (Eq. A.5 and A.6). *)
Definition func (self : Evolution) (y : R * R) (T ric cc : R) : R * R :=
  let rd := fst y in
  let Ti := snd y in
  let Ta := T_is self ric T in
  let Tm := T_Fe self ric cc in
  let y0 := rd - G self * (Tm - Ti) ^ 2 in
  let y1 := rho0 self * (cp self * (Tm - Ta) + LFe self) * rd
            - rhol self * cp self * u self * (Ti - Ta) in
  (y0, y1).

(** [Evolution.QLQG]: the term Q_L + Q_G. *)
Definition QLQG (self : Evolution) (dricdt ric : R) : R :=
  let Aic := 4 * PI * ric ^ 2 in
  (LFe self + Eg self) * rho0 self * dricdt * Aic.

(** [Evolution.dTcmb] *)
Definition dTcmb (self : Evolution) (dricdt ric : R) : R :=
  eta_c self / Mc self / cp self * (QLQG self dricdt ric - Qcmb self).

(** What [fsolve(..., full_output=True)] returns, the info dictionary
    apart: the last iterate, the status and its message. *)
Record FsolveOut : Type := mkFsolveOut {
  fs_x : R * R;
  fs_ier : Z;
  fs_mesg : string
}.

(** The type of [fsolve func x0 xtol args]: the residual function, the
    initial guess, the tolerance and the extra arguments given to [func]. *)
Definition Fsolve : Type :=
  (R * R -> R -> R -> R -> R * R) -> R * R -> R -> R * R * R -> FsolveOut.

Section Engine.

(** The root finder. *)
Variable fsolve : Fsolve.

(** The call [fsolve(func, [1e-9, T], xtol=1e-5, args=(T, ric, cc))]. *)
Definition icoregrowth_solve (self : Evolution) (T ric cc : R) : FsolveOut :=
  fsolve (func self) (1e-9, T) 1e-5 (T, ric, cc).

(** [Evolution.icoregrowth]: returns dric/dt and the interface
    temperature. *)
Definition icoregrowth (self : Evolution) (T ric cc : R) : M (R * R) :=
  let r := icoregrowth_solve self T ric cc in
  let a := fs_x r in
  let ierr := fs_ier r in
  let msg := fs_mesg r in
  _ <- (if (ierr =? 1)%Z then ret tt else print (mkPrinted ierr a msg)) ;;
  ret (fst a, snd a).

(** The body of the loop of [run_constant_temperature]. *)
Definition step_constant_temperature (T_center : R) (self : Evolution)
    (it : Z * R) : M Evolution :=
  let i := fst it in
  r_prev <- lift (getitem (ric self) (i - 1)) ;;
  dT <- icoregrowth self T_center r_prev 0 ;;
  let dric_ := fst dT in
  let Tic_ := snd dT in
  self <- store_dric i dric_ self ;;
  self <- store_Tic i Tic_ self ;;
  r_prev <- lift (getitem (ric self) (i - 1)) ;;
  self <- store_ric i (r_prev + dric_ * dt self) self ;;
  r_i <- lift (getitem (ric self) i) ;;
  self <- store_supercooling i (Rabs (T_Fe self r_i 0 - Tic_)) self ;;
  ret self.

(** The initial conditions both run methods write after the reset. *)
Definition initial_conditions (T_center : R) (self : Evolution)
  : M Evolution :=
  self <- store_dric 0 (G self * delta_T self ^ 2) self ;;
  self <- store_Tic 0 T_center self ;;
  self <- store_supercooling 0 (delta_T self) self ;;
  self <- store_Tis_center 0 T_center self ;;
  self <- store_Tcmb 0 (T_is self (rc self) T_center) self ;;
  ret self.

(** [Evolution.run_constant_temperature] *)
Definition run_constant_temperature (self : Evolution) : M Evolution :=
  self <- reinitilization self ;;
  let T_center := T_Fe self 0 0 - delta_T self in
  self <- initial_conditions T_center self ;;
  for_each (enumerate (drop 1 (time self)))
    (step_constant_temperature T_center) self.

(** The body of the loop of [run]. *)
Definition step_run (self : Evolution) (it : Z * R) : M Evolution :=
  let i := fst it in
  Tc_prev <- lift (getitem (Tis_center self) (i - 1)) ;;
  r_prev <- lift (getitem (ric self) (i - 1)) ;;
  dT <- icoregrowth self Tc_prev r_prev 0 ;;
  let dric_ := fst dT in
  let Tic_ := snd dT in
  self <- store_dric i dric_ self ;;
  self <- store_Tic i Tic_ self ;;
  r_prev <- lift (getitem (ric self) (i - 1)) ;;
  self <- store_ric i (r_prev + dric_ * dt self) self ;;
  r_i <- lift (getitem (ric self) i) ;;
  self <- store_supercooling i (Rabs (T_Fe self r_i 0 - Tic_)) self ;;
  Tc_prev <- lift (getitem (Tis_center self) (i - 1)) ;;
  r_i <- lift (getitem (ric self) i) ;;
  self <- store_Tis_center i (Tc_prev + dTcmb self dric_ r_i * dt self)
            self ;;
  r_i <- lift (getitem (ric self) i) ;;
  Tc_i <- lift (getitem (Tis_center self) i) ;;
  self <- store_Tcmb i (T_is self r_i Tc_i) self ;;
  ret self.

(** [Evolution.run] *)
Definition run (self : Evolution) : M Evolution :=
  self <- reinitilization self ;;
  let T_center := T_Fe self 0 0 - delta_T self in
  self <- initial_conditions T_center self ;;
  for_each (enumerate (drop 1 (time self))) step_run self.

End Engine.

(** ** Stand-ins for the root finder

    Functions of the type of [fsolve], used where a statement needs a
    concrete solver: one that reports status 5 (no convergence) and two that
    report status 1 (convergence). *)

(** Gives back the initial guess. *)
Definition fsolve_stalled : Fsolve :=
  fun _ x0 _ _ =>
    mkFsolveOut x0 5 "The iteration is not making good progress".

(** Reports convergence at the temperature of the initial guess with a
    growth rate at rounding level below zero: a solve to tolerance where the
    growth rate of the root is zero to machine precision. *)
Definition fsolve_rounding : Fsolve :=
  fun _ x0 _ _ =>
    mkFsolveOut (-5.3e-18, snd x0) 1 "The solution converged.".

(** A root of [func] in closed form. With [D = Tm - Ta],
    [a = G * rho0 * (cp * D + LFe)] and [b = rhol * cp * u], the undercooling
    [x = Tm - Ti] of a root solves [a x^2 + b x - b D = 0]; this is the root
    with [x >= 0] when [a > 0] and [b D >= 0]. *)
Definition exact_root (self : Evolution) (T ric cc : R) : R * R :=
  let Ta := T_is self ric T in
  let Tm := T_Fe self ric cc in
  let a := G self * (rho0 self * (cp self * (Tm - Ta) + LFe self)) in
  let b := rhol self * cp self * u self in
  let x := (sqrt (b ^ 2 + 4 * a * b * (Tm - Ta)) - b) / (2 * a) in
  (G self * x ^ 2, Tm - x).

(** Converges (status 1) to [exact_root] for the residuals of [self]. *)
Definition fsolve_exact (self : Evolution) : Fsolve :=
  fun _ _ _ args =>
    mkFsolveOut (exact_root self (fst (fst args)) (snd (fst args)) (snd args))
      1 "The solution converged.".

(** ** Vocabulary of the statements *)

(** The position [i - 1] denotes in an array of [n] elements: the last one
    when [i] is 0. *)
Definition prev (n i : nat) : nat :=
  match i with
  | O => (n - 1)%nat
  | S j => j
  end.

(** The attributes of [self] other than the six state arrays. *)
Definition frame (self : Evolution) : Evolution :=
  mkEvolution (Qcmb self) (delta_T self) (longueur self) (rc self) (G self)
    (rhol self) (rho0 self) (u self) (cp self) (LFe self) (TFe0 self)
    (gamma self) (eta_c self) (Mc self) (Eg self) (time self)
    (time_years self) (dt self) [] [] [] [] [] [].

(** The pair [icoregrowth] returns. *)
Definition icoregrowth_value
    (fsolve : Fsolve)
    (self : Evolution) (T ric cc : R) : R * R :=
  let a := fs_x (icoregrowth_solve fsolve self T ric cc) in
  (fst a, snd a).

(** The lines [icoregrowth] prints: one when the status is not 1. *)
Definition icoregrowth_printed
    (fsolve : Fsolve)
    (self : Evolution) (T ric cc : R) : list Printed :=
  let r := icoregrowth_solve fsolve self T ric cc in
  if (fs_ier r =? 1)%Z then []
  else [mkPrinted (fs_ier r) (fs_x r) (fs_mesg r)].

(** The state both run methods hold when their loop starts: the arrays
    zeroed by [reinitilization], then the initial conditions at index 0. *)
Definition start_state (self : Evolution) : Evolution :=
  let z := zeros_like (time self) in
  let T_center := T_Fe self 0 0 - delta_T self in
  mkEvolution (Qcmb self) (delta_T self) (longueur self) (rc self) (G self)
    (rhol self) (rho0 self) (u self) (cp self) (LFe self) (TFe0 self)
    (gamma self) (eta_c self) (Mc self) (Eg self) (time self)
    (time_years self) (dt self)
    (<[O:=G self * delta_T self ^ 2]> z)
    z
    (<[O:=T_center]> z)
    (<[O:=delta_T self]> z)
    (<[O:=T_center]> z)
    (<[O:=T_is self (rc self) T_center]> z).

(** The state after iteration [k] of the loop of
    [run_constant_temperature], [rp] being the radius read at [k - 1]. *)
Definition ct_next
    (fsolve : Fsolve)
    (T_center : R) (s : Evolution) (k : nat) (rp : R) : Evolution :=
  let dT := icoregrowth_value fsolve s T_center rp 0 in
  let r := rp + fst dT * dt s in
  set_supercooling
    (set_ric
       (set_Tic (set_dric s (<[k:=fst dT]> (dric s)))
          (<[k:=snd dT]> (Tic s)))
       (<[k:=r]> (ric s)))
    (<[k:=Rabs (T_Fe s r 0 - snd dT)]> (supercooling s)).

(** The state after iteration [k] of the loop of [run], [Tcp] and [rp]
    being the center temperature and the radius read at [k - 1]. *)
Definition run_next
    (fsolve : Fsolve)
    (s : Evolution) (k : nat) (Tcp rp : R) : Evolution :=
  let dT := icoregrowth_value fsolve s Tcp rp 0 in
  let r := rp + fst dT * dt s in
  let Tc := Tcp + dTcmb s (fst dT) r * dt s in
  set_Tcmb
    (set_Tis_center
       (set_supercooling
          (set_ric
             (set_Tic (set_dric s (<[k:=fst dT]> (dric s)))
                (<[k:=snd dT]> (Tic s)))
             (<[k:=r]> (ric s)))
          (<[k:=Rabs (T_Fe s r 0 - snd dT)]> (supercooling s)))
       (<[k:=Tc]> (Tis_center s)))
    (<[k:=T_is s r Tc]> (Tcmb s)).

(** Sample [k] of the arrays of [s] is what one iteration of the loop of
    [run_constant_temperature] computes from sample [k - 1]. *)
Definition ct_sample
    (fsolve : Fsolve)
    (T_center : R) (s : Evolution) (k : nat) : Prop :=
  exists rp : R,
    ric s !! prev (length (ric s)) k = Some rp
    /\ let dT := icoregrowth_value fsolve s T_center rp 0 in
       let r := rp + fst dT * dt s in
       dric s !! k = Some (fst dT)
       /\ Tic s !! k = Some (snd dT)
       /\ ric s !! k = Some r
       /\ supercooling s !! k = Some (Rabs (T_Fe s r 0 - snd dT)).

(** Sample [k] of the arrays of [s] is what one iteration of the loop of
    [run] computes from sample [k - 1]. *)
Definition run_sample
    (fsolve : Fsolve)
    (s : Evolution) (k : nat) : Prop :=
  exists Tcp rp : R,
    Tis_center s !! prev (length (Tis_center s)) k = Some Tcp
    /\ ric s !! prev (length (ric s)) k = Some rp
    /\ let dT := icoregrowth_value fsolve s Tcp rp 0 in
       let r := rp + fst dT * dt s in
       let Tc := Tcp + dTcmb s (fst dT) r * dt s in
       dric s !! k = Some (fst dT)
       /\ Tic s !! k = Some (snd dT)
       /\ ric s !! k = Some r
       /\ supercooling s !! k = Some (Rabs (T_Fe s r 0 - snd dT))
       /\ Tis_center s !! k = Some Tc
       /\ Tcmb s !! k = Some (T_is s r Tc).

(** The six arrays of [s] and [s'] hold the same value at position [j]. *)
Definition agree_at (s s' : Evolution) (j : nat) : Prop :=
  dric s' !! j = dric s !! j
  /\ ric s' !! j = ric s !! j
  /\ Tic s' !! j = Tic s !! j
  /\ supercooling s' !! j = supercooling s !! j
  /\ Tis_center s' !! j = Tis_center s !! j
  /\ Tcmb s' !! j = Tcmb s !! j.

(** The six arrays have [n] elements each. *)
Definition arrays_length (s : Evolution) (n : nat) : Prop :=
  length (dric s) = n
  /\ length (ric s) = n
  /\ length (Tic s) = n
  /\ length (supercooling s) = n
  /\ length (Tis_center s) = n
  /\ length (Tcmb s) = n.

(** After [k] iterations of the loop of [run_constant_temperature] started
    in [s0]: the constants are those of [s0], the samples from [k] on are
    those of [s0], and the samples below [k] are computed ones. *)
Definition ct_inv
    (fsolve : Fsolve)
    (T_center : R) (s0 : Evolution) (k : nat) (s : Evolution) : Prop :=
  frame s = frame s0
  /\ arrays_length s (length (time s0))
  /\ Tis_center s = Tis_center s0
  /\ Tcmb s = Tcmb s0
  /\ (forall j : nat, (k <= j)%nat -> agree_at s0 s j)
  /\ (forall j : nat, (j < k)%nat -> ct_sample fsolve T_center s j).

(** The same after [k] iterations of the loop of [run]. *)
Definition run_inv
    (fsolve : Fsolve)
    (s0 : Evolution) (k : nat) (s : Evolution) : Prop :=
  frame s = frame s0
  /\ arrays_length s (length (time s0))
  /\ (forall j : nat, (k <= j)%nat -> agree_at s0 s j)
  /\ (forall j : nat, (j < k)%nat -> run_sample fsolve s j).

(** Step [i] of [run_constant_temperature], read off the arrays of the
    result [s'] with the indexing of the source: the solve is given the fixed
    center temperature of [self] and the radius at [i - 1]; the radius at [i]
    is an Euler step from there; the supercooling at [i] is the distance of
    the interface temperature to the melting temperature at the new
    radius. *)
Definition ct_law
    (fsolve : Fsolve)
    (self s' : Evolution) (i : Z) : Prop :=
  exists r_prev : R,
    getitem (ric s') (i - 1) = Ok r_prev
    /\ let T_center := T_Fe self 0 0 - delta_T self in
       let dT := icoregrowth_value fsolve self T_center r_prev 0 in
       let r := r_prev + fst dT * dt self in
       getitem (dric s') i = Ok (fst dT)
       /\ getitem (Tic s') i = Ok (snd dT)
       /\ getitem (ric s') i = Ok r
       /\ getitem (supercooling s') i = Ok (Rabs (T_Fe self r 0 - snd dT)).

(** Step [i] of [run], read off the arrays of the result [s']: the solve is
    given the center temperature and the radius at [i - 1]; the center
    temperature at [i] is an Euler step with [dTcmb]; the boundary
    temperature at [i] is the isentrope through it. *)
Definition run_law
    (fsolve : Fsolve)
    (self s' : Evolution) (i : Z) : Prop :=
  exists Tc_prev r_prev : R,
    getitem (Tis_center s') (i - 1) = Ok Tc_prev
    /\ getitem (ric s') (i - 1) = Ok r_prev
    /\ let dT := icoregrowth_value fsolve self Tc_prev r_prev 0 in
       let r := r_prev + fst dT * dt self in
       let Tc := Tc_prev + dTcmb self (fst dT) r * dt self in
       getitem (dric s') i = Ok (fst dT)
       /\ getitem (Tic s') i = Ok (snd dT)
       /\ getitem (ric s') i = Ok r
       /\ getitem (supercooling s') i = Ok (Rabs (T_Fe self r 0 - snd dT))
       /\ getitem (Tis_center s') i = Ok Tc
       /\ getitem (Tcmb s') i = Ok (T_is self r Tc).

(** The object [__init__] builds where [np.linspace] takes the float count
    [1e3] for 1000 samples. *)
Definition init_state (delta_T Qcmb : R) : Evolution :=
  let year := 365.25 * 3600 * 24 in
  let time := linspace 0 (500 * year) 1000 in
  {| Qcmb := Qcmb;
     delta_T := delta_T;
     longueur := 6500e3;
     rc := 3600e3;
     G := 1e-4;
     rhol := 12500;
     rho0 := 11900;
     u := 3e-4;
     cp := 785;
     LFe := 750e3;
     TFe0 := 6500;
     gamma := 1.5;
     eta_c := 0.79;
     Mc := 1.95e24;
     Eg := 3e5;
     time := time;
     time_years := (fun t => t / year) <$> time;
     dt := 500 * year / 999;
     dric := zeros_like time;
     ric := zeros_like time;
     Tic := zeros_like time;
     supercooling := zeros_like time;
     Tis_center := zeros_like time;
     Tcmb := zeros_like time |}.

(** An object with the default constants on a grid of one sample. *)
Definition one_sample : Evolution :=
  mkEvolution 1e-12 100 6500e3 3600e3 1e-4 12500 11900 3e-4 785 750e3 6500
    1.5 0.79 1.95e24 3e5 [0] [0] 0 [0] [0] [0] [0] [0] [0].

(** A method that only appends to standard output: its result and the
    lines it writes do not depend on what was written before. *)
Definition appends_only {A : Type} (m : M A) : Prop :=
  exists (r : Res A) (lines : Stdout),
    forall out : Stdout, m out = (r, out ++ lines).

(** The line iteration [j] of the loop of [run_constant_temperature] prints,
    read off the radii [a_ric] of the result. *)
Definition ct_line (fsolve : Fsolve) (self : Evolution) (T_center : R)
    (a_ric : list R) (j : nat) : list Printed :=
  match getitem a_ric (Z.of_nat j - 1) with
  | Ok rp => icoregrowth_printed fsolve self T_center rp 0
  | Raise _ => []
  end.

(** The line iteration [j] of the loop of [run] prints, read off the center
    temperatures and the radii of the result. *)
Definition run_line (fsolve : Fsolve) (self : Evolution)
    (a_Tc a_ric : list R) (j : nat) : list Printed :=
  match getitem a_Tc (Z.of_nat j - 1), getitem a_ric (Z.of_nat j - 1) with
  | Ok Tcp, Ok rp => icoregrowth_printed fsolve self Tcp rp 0
  | _, _ => []
  end.

(** ** NumPy indexing *)

Lemma norm_index_nat (n k : nat) :
  (k < n)%nat -> norm_index n (Z.of_nat k) = Some k.
Proof.
  intros Hk. unfold norm_index.
  destruct (Z.leb_spec 0 (Z.of_nat k)); [|lia].
  destruct (Z.ltb_spec (Z.of_nat k) (Z.of_nat n)); [|lia].
  by rewrite Nat2Z.id.
Qed.

Lemma norm_index_pred (n k : nat) :
  (k < n)%nat -> norm_index n (Z.of_nat k - 1) = Some (prev n k).
Proof.
  intros Hk. unfold norm_index. destruct k as [|j]; simpl prev.
  - destruct (Z.leb_spec 0 (Z.of_nat 0 - 1)); [lia|].
    destruct (Z.leb_spec (- Z.of_nat n) (Z.of_nat 0 - 1)); [|lia].
    f_equal. lia.
  - destruct (Z.leb_spec 0 (Z.of_nat (S j) - 1)); [|lia].
    destruct (Z.ltb_spec (Z.of_nat (S j) - 1) (Z.of_nat n)); [|lia].
    f_equal. lia.
Qed.

Lemma prev_lt (n k : nat) : (k < n)%nat -> (prev n k < n)%nat.
Proof. destruct k; simpl; lia. Qed.

Lemma getitem_nat (a : list R) (k : nat) (v : R) :
  a !! k = Some v -> getitem a (Z.of_nat k) = Ok v.
Proof.
  intros Hv. unfold getitem.
  rewrite norm_index_nat by (by eapply lookup_lt_Some).
  by rewrite Hv.
Qed.

Lemma getitem_pred (a : list R) (k : nat) (v : R) :
  (k < length a)%nat ->
  a !! prev (length a) k = Some v -> getitem a (Z.of_nat k - 1) = Ok v.
Proof.
  intros Hk Hv. unfold getitem. rewrite norm_index_pred by done.
  by rewrite Hv.
Qed.

Lemma setitem_nat (a : list R) (k : nat) (v : R) :
  (k < length a)%nat -> setitem a (Z.of_nat k) v = Ok (<[k:=v]> a).
Proof. intros Hk. unfold setitem. by rewrite norm_index_nat. Qed.


Lemma length_zeros_like (a : list R) : length (zeros_like a) = length a.
Proof. apply length_replicate. Qed.

Lemma lookup_zeros_like (a : list R) (k : nat) :
  (k < length a)%nat -> zeros_like a !! k = Some 0.
Proof. intros Hk. unfold zeros_like. by apply lookup_replicate_2. Qed.

Lemma length_linspace (start stop : R) (num : nat) :
  length (linspace start stop num) = num.
Proof. unfold linspace. by rewrite length_fmap, length_seq. Qed.

Lemma lookup_linspace (start stop : R) (num k : nat) :
  (k < num)%nat ->
  linspace start stop num !! k
  = Some (start + INR k * ((stop - start) / INR (num - 1))).
Proof.
  intros Hk. unfold linspace.
  by rewrite list_lookup_fmap, lookup_seq_lt.
Qed.

Lemma length_enumerate (a : list R) : length (enumerate a) = length a.
Proof.
  unfold enumerate.
  rewrite length_zip_with, length_fmap, length_seq. lia.
Qed.

(** ** The constructor *)

Lemma linspace_float_int_count (start stop : R) :
  linspace_float np_int_count start stop 1e3 = Ok (linspace start stop 1000).
Proof.
  unfold linspace_float. destruct (Rle_dec 1e3 (-1)) as [H|_]; [lra|].
  rewrite <- (Int_part_spec 1e3 1000) by lra. reflexivity.
Qed.

Lemma init_ok (delta_T Qcmb : R) (out : Stdout) :
  __init__ np_int_count delta_T Qcmb out
  = (Ok (init_state delta_T Qcmb), out).
Proof.
  unfold __init__, bind, lift, ret. rewrite linspace_float_int_count.
  rewrite (getitem_nat _ 1 _ (lookup_linspace _ _ 1000 1 ltac:(lia))).
  rewrite (getitem_nat _ 0 _ (lookup_linspace _ _ 1000 0 ltac:(lia))).
  unfold init_state. do 2 f_equal. f_equal.
  replace (INR (1000 - 1)) with 999.
  - simpl INR. lra.
  - change (1000 - 1)%nat with 999%nat. rewrite INR_IZR_INZ. reflexivity.
Qed.

Lemma init_type_error (delta_T Qcmb : R) (out : Stdout) :
  __init__ np_index_count delta_T Qcmb out = (Raise TypeError, out).
Proof. reflexivity. Qed.

Lemma length_time_init (delta_T Qcmb : R) :
  length (time (init_state delta_T Qcmb)) = 1000%nat.
Proof. apply length_linspace. Qed.

(** ** Profile functions *)

Lemma T_is_center (self : Evolution) (T : R) : T_is self 0 T = T.
Proof.
  unfold T_is.
  replace (- 0 ^ 2 / longueur self ^ 2) with 0 by (unfold Rdiv; ring).
  rewrite exp_0. ring.
Qed.

Lemma T_Fe_center (self : Evolution) (xi : R) :
  T_Fe self 0 xi = TFe0 self - xi.
Proof.
  unfold T_Fe.
  replace (-2 * (1 - 1 / 3 / gamma self) * 0 ^ 2 / longueur self ^ 2)
    with 0 by (unfold Rdiv; ring).
  rewrite exp_0. ring.
Qed.

(** C10. At radius 0 the profiles return their center values: the
    isentrope gives back the center temperature it is given, and the melting
    temperature with no concentration offset is [TFe0]. *)
Theorem profiles_at_center :
  (forall (self : Evolution) (T : R), T_is self 0 T = T)
  /\ (forall self : Evolution, T_Fe self 0 0 = TFe0 self).
Proof.
  split.
  - apply T_is_center.
  - intros self. rewrite T_Fe_center. ring.
Qed.

(** ** Feedback law *)

(** C6. [QLQG] is (L_Fe + E_g) * rho0 * dr * 4 pi ric^2, [dTcmb] is
    eta_c / (M_c * cp) times the heat release minus Q_cmb, and with positive
    eta_c, M_c and cp its sign is the sign of that difference. *)
Theorem feedback_law (self : Evolution) (dr r : R) :
  0 < eta_c self -> 0 < Mc self -> 0 < cp self ->
  QLQG self dr r = (LFe self + Eg self) * rho0 self * dr * (4 * PI * r ^ 2)
  /\ dTcmb self dr r
     = eta_c self / (Mc self * cp self) * (QLQG self dr r - Qcmb self)
  /\ (Qcmb self < QLQG self dr r -> 0 < dTcmb self dr r)
  /\ (QLQG self dr r < Qcmb self -> dTcmb self dr r < 0).
Proof.
  intros He HM Hc.
  assert (Hk : 0 < eta_c self / Mc self / cp self).
  { repeat apply Rdiv_lt_0_compat; assumption. }
  split_and!.
  - reflexivity.
  - unfold dTcmb. field. split; lra.
  - intros Hq. unfold dTcmb. apply Rmult_lt_0_compat; lra.
  - intros Hq. unfold dTcmb.
    replace (eta_c self / Mc self / cp self * (QLQG self dr r - Qcmb self))
      with (- (eta_c self / Mc self / cp self
               * (Qcmb self - QLQG self dr r))) by ring.
    apply Ropp_lt_gt_0_contravar, Rlt_gt, Rmult_lt_0_compat; lra.
Qed.

Lemma feedback_law_witness :
  exists self : Evolution,
    __init__ np_int_count 100 1e-12 [] = (Ok self, [])
    /\ QLQG self 1 1 = (LFe self + Eg self) * rho0 self * 1 * (4 * PI * 1 ^ 2)
    /\ dTcmb self 1 1
       = eta_c self / (Mc self * cp self) * (QLQG self 1 1 - Qcmb self)
    /\ (Qcmb self < QLQG self 1 1 -> 0 < dTcmb self 1 1)
    /\ (QLQG self 1 1 < Qcmb self -> dTcmb self 1 1 < 0).
Proof.
  exists (init_state 100 1e-12). split; [apply init_ok|].
  apply (feedback_law (init_state 100 1e-12) 1 1); simpl; lra.
Defined.

(** ** The monad *)

Lemma bind_ok {A B : Type} (m : M A) (k : A -> M B) (out out' : Stdout)
    (a : A) :
  m out = (Ok a, out') -> bind m k out = k a out'.
Proof. intros Hm. unfold bind. by rewrite Hm. Qed.


Lemma lift_ok {A : Type} (r : Res A) (a : A) (out : Stdout) :
  r = Ok a -> lift r out = (Ok a, out).
Proof. intros ->. reflexivity. Qed.

(** A loop whose body keeps an invariant indexed by the number of
    iterations done runs to its end and establishes the invariant there. *)
Lemma for_each_invariant {A St : Type} (body : St -> A -> M St)
    (I : nat -> St -> Stdout -> Prop) (xs : list A) (s : St) (out : Stdout) :
  I O s out ->
  (forall (k : nat) (x : A) (s1 : St) (out1 : Stdout),
      xs !! k = Some x -> I k s1 out1 ->
      exists (s2 : St) (out2 : Stdout),
        body s1 x out1 = (Ok s2, out2) /\ I (S k) s2 out2) ->
  exists (s' : St) (out' : Stdout),
    for_each xs body s out = (Ok s', out') /\ I (length xs) s' out'.
Proof.
  revert I s out. induction xs as [|x xs IH]; intros I s out H0 Hstep.
  - exists s, out. by split.
  - destruct (Hstep O x s out eq_refl H0) as (s2 & out2 & Hb & H1).
    destruct (IH (fun k => I (S k)) s2 out2 H1) as (s' & out' & Hl & Hn).
    { intros k y s1 out1 Hy Hk. by apply (Hstep (S k) y). }
    exists s', out'. split; [|done].
    simpl for_each. by rewrite (bind_ok _ _ _ _ _ Hb).
Qed.

(** ** Attribute stores *)

Lemma store_dric_ok (k : nat) (v : R) (self : Evolution) (out : Stdout) :
  (k < length (dric self))%nat ->
  store_dric (Z.of_nat k) v self out
  = (Ok (set_dric self (<[k:=v]> (dric self))), out).
Proof. intros Hk. unfold store_dric, bind, lift. by rewrite setitem_nat. Qed.

Lemma store_ric_ok (k : nat) (v : R) (self : Evolution) (out : Stdout) :
  (k < length (ric self))%nat ->
  store_ric (Z.of_nat k) v self out
  = (Ok (set_ric self (<[k:=v]> (ric self))), out).
Proof. intros Hk. unfold store_ric, bind, lift. by rewrite setitem_nat. Qed.

Lemma store_Tic_ok (k : nat) (v : R) (self : Evolution) (out : Stdout) :
  (k < length (Tic self))%nat ->
  store_Tic (Z.of_nat k) v self out
  = (Ok (set_Tic self (<[k:=v]> (Tic self))), out).
Proof. intros Hk. unfold store_Tic, bind, lift. by rewrite setitem_nat. Qed.

Lemma store_supercooling_ok (k : nat) (v : R) (self : Evolution)
    (out : Stdout) :
  (k < length (supercooling self))%nat ->
  store_supercooling (Z.of_nat k) v self out
  = (Ok (set_supercooling self (<[k:=v]> (supercooling self))), out).
Proof.
  intros Hk. unfold store_supercooling, bind, lift. by rewrite setitem_nat.
Qed.

Lemma store_Tis_center_ok (k : nat) (v : R) (self : Evolution)
    (out : Stdout) :
  (k < length (Tis_center self))%nat ->
  store_Tis_center (Z.of_nat k) v self out
  = (Ok (set_Tis_center self (<[k:=v]> (Tis_center self))), out).
Proof.
  intros Hk. unfold store_Tis_center, bind, lift. by rewrite setitem_nat.
Qed.

Lemma store_Tcmb_ok (k : nat) (v : R) (self : Evolution) (out : Stdout) :
  (k < length (Tcmb self))%nat ->
  store_Tcmb (Z.of_nat k) v self out
  = (Ok (set_Tcmb self (<[k:=v]> (Tcmb self))), out).
Proof. intros Hk. unfold store_Tcmb, bind, lift. by rewrite setitem_nat. Qed.

(** ** Functions of the constants only *)

Lemma T_is_frame (s s' : Evolution) :
  frame s = frame s' -> T_is s = T_is s'.
Proof.
  intros H. change (T_is (frame s) = T_is (frame s')). by rewrite H.
Qed.

Lemma T_Fe_frame (s s' : Evolution) :
  frame s = frame s' -> T_Fe s = T_Fe s'.
Proof.
  intros H. change (T_Fe (frame s) = T_Fe (frame s')). by rewrite H.
Qed.

Lemma dTcmb_frame (s s' : Evolution) :
  frame s = frame s' -> dTcmb s = dTcmb s'.
Proof.
  intros H. change (dTcmb (frame s) = dTcmb (frame s')). by rewrite H.
Qed.

Lemma dt_frame (s s' : Evolution) : frame s = frame s' -> dt s = dt s'.
Proof. intros H. change (dt (frame s) = dt (frame s')). by rewrite H. Qed.

Section Properties.

Variable fsolve : Fsolve.

Lemma icoregrowth_value_frame (s s' : Evolution) :
  frame s = frame s' -> icoregrowth_value fsolve s = icoregrowth_value fsolve s'.
Proof.
  intros H.
  change (icoregrowth_value fsolve (frame s)
          = icoregrowth_value fsolve (frame s')).
  by rewrite H.
Qed.

(** ** The growth-rate solve *)

Lemma icoregrowth_eq (self : Evolution) (T r cc : R) (out : Stdout) :
  icoregrowth fsolve self T r cc out
  = (Ok (icoregrowth_value fsolve self T r cc),
     out ++ icoregrowth_printed fsolve self T r cc).
Proof.
  unfold icoregrowth, icoregrowth_value, icoregrowth_printed, bind.
  destruct (fs_ier (icoregrowth_solve fsolve self T r cc) =? 1)%Z.
  - unfold ret. by rewrite app_nil_r.
  - reflexivity.
Qed.

(** C7. When [fsolve] reports a status other than 1, [icoregrowth] prints
    one line holding the status, the iterate and the message, and then
    returns that unconverged iterate. *)
Theorem icoregrowth_flags_nonconvergence
    (self : Evolution) (T r cc : R) (out : Stdout) :
  let res := icoregrowth_solve fsolve self T r cc in
  fs_ier res <> 1%Z ->
  icoregrowth fsolve self T r cc out
  = (Ok (fst (fs_x res), snd (fs_x res)),
     out ++ [mkPrinted (fs_ier res) (fs_x res) (fs_mesg res)]).
Proof.
  intros res Hier. rewrite icoregrowth_eq.
  unfold icoregrowth_value, icoregrowth_printed. fold res.
  destruct (Z.eqb_spec (fs_ier res) 1); [contradiction | reflexivity].
Qed.

(** On success nothing is printed. *)
Lemma icoregrowth_converged_silent
    (self : Evolution) (T r cc : R) (out : Stdout) :
  let res := icoregrowth_solve fsolve self T r cc in
  fs_ier res = 1%Z ->
  icoregrowth fsolve self T r cc out
  = (Ok (fst (fs_x res), snd (fs_x res)), out).
Proof.
  intros res Hier. rewrite icoregrowth_eq.
  unfold icoregrowth_value, icoregrowth_printed. fold res.
  rewrite Hier. simpl. by rewrite app_nil_r.
Qed.

(** ** One iteration of each loop *)

Lemma step_constant_temperature_eq (T_center : R) (s : Evolution) (k : nat)
    (t : R) (out : Stdout) (rp : R) :
  (k < length (dric s))%nat -> (k < length (Tic s))%nat ->
  (k < length (ric s))%nat -> (k < length (supercooling s))%nat ->
  ric s !! prev (length (ric s)) k = Some rp ->
  step_constant_temperature fsolve T_center s (Z.of_nat k, t) out
  = (Ok (ct_next fsolve T_center s k rp),
     out ++ icoregrowth_printed fsolve s T_center rp 0).
Proof.
  intros Hd HT Hr Hs Hrp. unfold step_constant_temperature.
  cbn [fst].
  erewrite bind_ok by (by apply lift_ok, getitem_pred).
  erewrite bind_ok by apply icoregrowth_eq.
  erewrite bind_ok by (apply store_dric_ok; exact Hd).
  erewrite bind_ok by (apply store_Tic_ok; exact HT).
  erewrite bind_ok by (by apply lift_ok, getitem_pred).
  erewrite bind_ok by (apply store_ric_ok; exact Hr).
  erewrite bind_ok
    by (apply lift_ok, getitem_nat, list_lookup_insert_eq; exact Hr).
  erewrite bind_ok by (apply store_supercooling_ok; exact Hs).
  reflexivity.
Qed.

Lemma step_run_eq (s : Evolution) (k : nat) (t : R) (out : Stdout)
    (Tcp rp : R) :
  arrays_length s (length (ric s)) -> (k < length (ric s))%nat ->
  Tis_center s !! prev (length (Tis_center s)) k = Some Tcp ->
  ric s !! prev (length (ric s)) k = Some rp ->
  step_run fsolve s (Z.of_nat k, t) out
  = (Ok (run_next fsolve s k Tcp rp),
     out ++ icoregrowth_printed fsolve s Tcp rp 0).
Proof.
  intros (Hd & _ & HT & Hs & Hc & Hb) Hk HTcp Hrp.
  rewrite <- Hd in Hk at 1. pose proof Hk as Hk'. rewrite Hd in Hk'.
  unfold step_run. cbn [fst].
  erewrite bind_ok by (apply lift_ok, getitem_pred; [lia | exact HTcp]).
  erewrite bind_ok by (by apply lift_ok, getitem_pred).
  erewrite bind_ok by apply icoregrowth_eq.
  erewrite bind_ok by (apply store_dric_ok; exact Hk).
  erewrite bind_ok by (apply store_Tic_ok; cbn; lia).
  erewrite bind_ok by (by apply lift_ok, getitem_pred).
  erewrite bind_ok by (apply store_ric_ok; exact Hk').
  erewrite bind_ok
    by (apply lift_ok, getitem_nat, list_lookup_insert_eq; exact Hk').
  erewrite bind_ok by (apply store_supercooling_ok; cbn; lia).
  erewrite bind_ok by (apply lift_ok, getitem_pred; [cbn; lia | exact HTcp]).
  erewrite bind_ok
    by (apply lift_ok, getitem_nat, list_lookup_insert_eq; exact Hk').
  erewrite bind_ok by (apply store_Tis_center_ok; cbn; lia).
  erewrite bind_ok
    by (apply lift_ok, getitem_nat, list_lookup_insert_eq; exact Hk').
  erewrite bind_ok
    by (apply lift_ok, getitem_nat, list_lookup_insert_eq; cbn; lia).
  erewrite bind_ok by (apply store_Tcmb_ok; cbn; lia).
  reflexivity.
Qed.

(** ** What an iteration keeps *)

Lemma prev_ne (n k : nat) : (S k < n)%nat -> k <> prev n k.
Proof. destruct k; simpl; lia. Qed.

Lemma prev_below (n j k : nat) :
  (j < k)%nat -> (S k < n)%nat -> k <> prev n j.
Proof. destruct j; simpl; lia. Qed.

Lemma agree_at_refl (s : Evolution) (j : nat) : agree_at s s j.
Proof. by repeat split. Qed.

Lemma agree_at_trans (s1 s2 s3 : Evolution) (j : nat) :
  agree_at s1 s2 j -> agree_at s2 s3 j -> agree_at s1 s3 j.
Proof.
  intros (H1 & H2 & H3 & H4 & H5 & H6) (K1 & K2 & K3 & K4 & K5 & K6).
  repeat split; congruence.
Qed.

Lemma agree_at_ct_next (T_center : R) (s : Evolution) (k j : nat) (rp : R) :
  k <> j -> agree_at s (ct_next fsolve T_center s k rp) j.
Proof.
  intros Hkj. unfold agree_at, ct_next. cbn.
  split_and!; try reflexivity; by apply list_lookup_insert_ne.
Qed.

Lemma agree_at_run_next (s : Evolution) (k j : nat) (Tcp rp : R) :
  k <> j -> agree_at s (run_next fsolve s k Tcp rp) j.
Proof.
  intros Hkj. unfold agree_at, run_next. cbn.
  split_and!; by apply list_lookup_insert_ne.
Qed.

Lemma arrays_length_ct_next (T_center : R) (s : Evolution) (k n : nat)
    (rp : R) :
  arrays_length s n -> arrays_length (ct_next fsolve T_center s k rp) n.
Proof.
  intros (H1 & H2 & H3 & H4 & H5 & H6). unfold arrays_length, ct_next. cbn.
  rewrite !length_insert. by repeat split.
Qed.

Lemma arrays_length_run_next (s : Evolution) (k n : nat) (Tcp rp : R) :
  arrays_length s n -> arrays_length (run_next fsolve s k Tcp rp) n.
Proof.
  intros (H1 & H2 & H3 & H4 & H5 & H6). unfold arrays_length, run_next. cbn.
  rewrite !length_insert. by repeat split.
Qed.

Lemma ct_sample_agree (T_center : R) (s s' : Evolution) (j : nat) :
  frame s' = frame s -> length (ric s') = length (ric s) ->
  agree_at s s' j -> agree_at s s' (prev (length (ric s)) j) ->
  ct_sample fsolve T_center s j -> ct_sample fsolve T_center s' j.
Proof.
  intros Hf Hl (A1 & A2 & A3 & A4 & _) (_ & B2 & _) (rp & Hrp & Hs).
  exists rp. rewrite Hl, B2. split; [done|].
  rewrite (icoregrowth_value_frame _ _ Hf), (dt_frame _ _ Hf),
    (T_Fe_frame _ _ Hf).
  cbv zeta in Hs |- *. by rewrite A1, A2, A3, A4.
Qed.

Lemma run_sample_agree (s s' : Evolution) (j : nat) :
  frame s' = frame s -> arrays_length s (length (ric s)) ->
  arrays_length s' (length (ric s)) ->
  agree_at s s' j -> agree_at s s' (prev (length (ric s)) j) ->
  run_sample fsolve s j -> run_sample fsolve s' j.
Proof.
  intros Hf (_ & _ & _ & _ & L5 & _) (_ & L2' & _ & _ & L5' & _)
    (A1 & A2 & A3 & A4 & A5 & A6) (_ & B2 & _ & _ & B5 & _)
    (Tcp & rp & HTcp & Hrp & Hs).
  exists Tcp, rp. rewrite L5', L2'. rewrite L5 in HTcp.
  rewrite B2, B5. split_and!; [done | done |].
  rewrite (icoregrowth_value_frame _ _ Hf), (dt_frame _ _ Hf),
    (T_Fe_frame _ _ Hf), (T_is_frame _ _ Hf), (dTcmb_frame _ _ Hf).
  cbv zeta in Hs |- *. by rewrite A1, A2, A3, A4, A5, A6.
Qed.

Lemma ct_sample_ct_next (T_center : R) (s : Evolution) (k : nat) (rp : R) :
  arrays_length s (length (ric s)) -> (S k < length (ric s))%nat ->
  ric s !! prev (length (ric s)) k = Some rp ->
  ct_sample fsolve T_center (ct_next fsolve T_center s k rp) k.
Proof.
  intros (H1 & _ & H3 & H4 & _) Hk Hrp. exists rp.
  unfold ct_next. cbn. rewrite length_insert.
  rewrite list_lookup_insert_ne by (apply prev_ne; lia).
  split; [done|].
  split_and!; apply list_lookup_insert_eq; lia.
Qed.

Lemma run_sample_run_next (s : Evolution) (k : nat) (Tcp rp : R) :
  arrays_length s (length (ric s)) -> (S k < length (ric s))%nat ->
  Tis_center s !! prev (length (Tis_center s)) k = Some Tcp ->
  ric s !! prev (length (ric s)) k = Some rp ->
  run_sample fsolve (run_next fsolve s k Tcp rp) k.
Proof.
  intros (H1 & _ & H3 & H4 & H5 & H6) Hk HTcp Hrp. exists Tcp, rp.
  unfold run_next. cbn. rewrite !length_insert.
  rewrite !list_lookup_insert_ne by (apply prev_ne; lia).
  split_and!; [done | done | ..]; apply list_lookup_insert_eq; lia.
Qed.

(** ** The loop invariants *)

Lemma ct_inv_start (T_center : R) (s0 : Evolution) :
  arrays_length s0 (length (time s0)) -> ct_inv fsolve T_center s0 O s0.
Proof.
  intros HL. unfold ct_inv.
  split_and!; [done | done | done | done | | intros j Hj; lia].
  intros j _. apply agree_at_refl.
Qed.

Lemma ct_inv_next (T_center : R) (s0 s : Evolution) (k : nat) :
  (S k < length (time s0))%nat -> ct_inv fsolve T_center s0 k s ->
  exists rp : R,
    ric s !! prev (length (ric s)) k = Some rp
    /\ ct_inv fsolve T_center s0 (S k) (ct_next fsolve T_center s k rp).
Proof.
  intros Hk (Hf & HL & HTc & Hcmb & Hrest & Hdone).
  pose proof HL as (L1 & L2 & L3 & L4 & L5 & L6).
  destruct (lookup_lt_is_Some_2 (ric s) (prev (length (ric s)) k))
    as [rp Hrp]; [apply prev_lt; lia|].
  exists rp. split; [done|].
  assert (HL' : arrays_length s (length (ric s))) by (by rewrite L2).
  unfold ct_inv. split_and!.
  - exact Hf.
  - by apply arrays_length_ct_next.
  - exact HTc.
  - exact Hcmb.
  - intros j Hj. eapply agree_at_trans; [apply Hrest; lia|].
    apply agree_at_ct_next. lia.
  - intros j Hj. destruct (decide (j = k)) as [->|Hjk].
    + apply ct_sample_ct_next; [done | lia | done].
    + apply (ct_sample_agree T_center s).
      * reflexivity.
      * unfold ct_next. cbn. by rewrite length_insert.
      * apply agree_at_ct_next. lia.
      * apply agree_at_ct_next. apply prev_below; lia.
      * apply Hdone. lia.
Qed.

Lemma run_inv_start (s0 : Evolution) :
  arrays_length s0 (length (time s0)) -> run_inv fsolve s0 O s0.
Proof.
  intros HL. unfold run_inv.
  split_and!; [done | done | | intros j Hj; lia].
  intros j _. apply agree_at_refl.
Qed.

Lemma run_inv_next (s0 s : Evolution) (k : nat) :
  (S k < length (time s0))%nat -> run_inv fsolve s0 k s ->
  exists Tcp rp : R,
    Tis_center s !! prev (length (Tis_center s)) k = Some Tcp
    /\ ric s !! prev (length (ric s)) k = Some rp
    /\ run_inv fsolve s0 (S k) (run_next fsolve s k Tcp rp).
Proof.
  intros Hk (Hf & HL & Hrest & Hdone).
  pose proof HL as (L1 & L2 & L3 & L4 & L5 & L6).
  destruct (lookup_lt_is_Some_2 (ric s) (prev (length (ric s)) k))
    as [rp Hrp]; [apply prev_lt; lia|].
  destruct (lookup_lt_is_Some_2 (Tis_center s)
              (prev (length (Tis_center s)) k))
    as [Tcp HTcp]; [apply prev_lt; lia|].
  exists Tcp, rp. split_and!; [done | done |].
  assert (HL' : arrays_length s (length (ric s))) by (by rewrite L2).
  unfold run_inv. split_and!.
  - exact Hf.
  - by apply arrays_length_run_next.
  - intros j Hj. eapply agree_at_trans; [apply Hrest; lia|].
    apply agree_at_run_next. lia.
  - intros j Hj. destruct (decide (j = k)) as [->|Hjk].
    + apply run_sample_run_next; [done | lia | done | done].
    + apply (run_sample_agree s).
      * reflexivity.
      * done.
      * by apply arrays_length_run_next.
      * apply agree_at_run_next. lia.
      * apply agree_at_run_next. apply prev_below; lia.
      * apply Hdone. lia.
Qed.

Lemma lookup_enumerate_inv (a : list R) (k : nat) (x : Z * R) :
  enumerate a !! k = Some x -> fst x = Z.of_nat k /\ (k < length a)%nat.
Proof.
  unfold enumerate. intros Hx.
  apply lookup_zip_with_Some in Hx as (i & t & -> & Hi & Ht).
  rewrite list_lookup_fmap in Hi.
  apply lookup_lt_Some in Ht as Hlen.
  rewrite lookup_seq_lt in Hi by done. simpl in Hi |- *.
  split; [congruence | done].
Qed.

(** The loop of [run_constant_temperature], started with arrays as long as
    the time grid, runs to its end and computes every sample but the
    last. *)
Lemma ct_loop (T_center : R) (s0 : Evolution) (out : Stdout) :
  arrays_length s0 (length (time s0)) ->
  exists (s' : Evolution) (out' : Stdout),
    for_each (enumerate (drop 1 (time s0)))
      (step_constant_temperature fsolve T_center) s0 out = (Ok s', out')
    /\ ct_inv fsolve T_center s0 (length (time s0) - 1) s'.
Proof.
  intros HL.
  destruct (for_each_invariant (step_constant_temperature fsolve T_center)
              (fun k s _ => ct_inv fsolve T_center s0 k s)
              (enumerate (drop 1 (time s0))) s0 out)
    as (s' & out' & Hrun & Hinv).
  - by apply ct_inv_start.
  - intros k x s1 out1 Hx Hinv.
    apply lookup_enumerate_inv in Hx as [Hi Hk].
    rewrite length_drop in Hk.
    destruct (ct_inv_next T_center s0 s1 k) as (rp & Hrp & Hnext);
      [lia | done |].
    destruct Hinv as (_ & (L1 & L2 & L3 & L4 & _) & _).
    exists (ct_next fsolve T_center s1 k rp),
      (out1 ++ icoregrowth_printed fsolve s1 T_center rp 0).
    split; [|done].
    destruct x as [i t]. simpl in Hi. subst i.
    apply step_constant_temperature_eq; [lia.. | done].
  - exists s', out'. split; [done|].
    by rewrite length_enumerate, length_drop in Hinv.
Qed.

(** The same for the loop of [run]. *)
Lemma run_loop (s0 : Evolution) (out : Stdout) :
  arrays_length s0 (length (time s0)) ->
  exists (s' : Evolution) (out' : Stdout),
    for_each (enumerate (drop 1 (time s0))) (step_run fsolve) s0 out
    = (Ok s', out')
    /\ run_inv fsolve s0 (length (time s0) - 1) s'.
Proof.
  intros HL.
  destruct (for_each_invariant (step_run fsolve)
              (fun k s _ => run_inv fsolve s0 k s)
              (enumerate (drop 1 (time s0))) s0 out)
    as (s' & out' & Hrun & Hinv).
  - by apply run_inv_start.
  - intros k x s1 out1 Hx Hinv.
    apply lookup_enumerate_inv in Hx as [Hi Hk].
    rewrite length_drop in Hk.
    destruct (run_inv_next s0 s1 k) as (Tcp & rp & HTcp & Hrp & Hnext);
      [lia | done |].
    destruct Hinv as (_ & HL1 & _).
    pose proof HL1 as (L1 & L2 & L3 & L4 & _).
    exists (run_next fsolve s1 k Tcp rp),
      (out1 ++ icoregrowth_printed fsolve s1 Tcp rp 0).
    split; [|done].
    destruct x as [i t]. simpl in Hi. subst i.
    apply step_run_eq; [by rewrite L2 | lia | done | done].
  - exists s', out'. split; [done|].
    by rewrite length_enumerate, length_drop in Hinv.
Qed.

(** ** From the reset to the loop *)

Lemma initial_conditions_eq (T_center : R) (s : Evolution) (out : Stdout) :
  (0 < length (dric s))%nat -> (0 < length (Tic s))%nat ->
  (0 < length (supercooling s))%nat -> (0 < length (Tis_center s))%nat ->
  (0 < length (Tcmb s))%nat ->
  initial_conditions T_center s out
  = (Ok (set_Tcmb
           (set_Tis_center
              (set_supercooling
                 (set_Tic
                    (set_dric s (<[O:=G s * delta_T s ^ 2]> (dric s)))
                    (<[O:=T_center]> (Tic s)))
                 (<[O:=delta_T s]> (supercooling s)))
              (<[O:=T_center]> (Tis_center s)))
           (<[O:=T_is s (rc s) T_center]> (Tcmb s))),
     out).
Proof.
  intros H1 H2 H3 H4 H5. unfold initial_conditions.
  erewrite bind_ok by (apply (store_dric_ok O); exact H1).
  erewrite bind_ok by (apply (store_Tic_ok O); exact H2).
  erewrite bind_ok by (apply (store_supercooling_ok O); exact H3).
  erewrite bind_ok by (apply (store_Tis_center_ok O); exact H4).
  erewrite bind_ok by (apply (store_Tcmb_ok O); exact H5).
  reflexivity.
Qed.


Lemma run_constant_temperature_start (self : Evolution) (out : Stdout) :
  (0 < length (time self))%nat ->
  run_constant_temperature fsolve self out
  = for_each (enumerate (drop 1 (time self)))
      (step_constant_temperature fsolve (T_Fe self 0 0 - delta_T self))
      (start_state self) out.
Proof.
  intros HN. unfold run_constant_temperature.
  erewrite bind_ok by reflexivity.
  erewrite bind_ok
    by (apply initial_conditions_eq; cbn -[zeros_like];
        by rewrite length_zeros_like).
  reflexivity.
Qed.

Lemma run_start (self : Evolution) (out : Stdout) :
  (0 < length (time self))%nat ->
  run fsolve self out
  = for_each (enumerate (drop 1 (time self))) (step_run fsolve)
      (start_state self) out.
Proof.
  intros HN. unfold run.
  erewrite bind_ok by reflexivity.
  erewrite bind_ok
    by (apply initial_conditions_eq; cbn -[zeros_like];
        by rewrite length_zeros_like).
  reflexivity.
Qed.



Lemma arrays_length_start_state (self : Evolution) :
  arrays_length (start_state self) (length (time self)).
Proof.
  unfold arrays_length, start_state. cbn -[zeros_like].
  rewrite !length_insert, length_zeros_like. by repeat split.
Qed.

(** In the start state every sample past index 0 is zero, and the whole
    radius array is. *)
Lemma start_state_zero (self : Evolution) (j : nat) :
  (0 < j < length (time self))%nat ->
  dric (start_state self) !! j = Some 0
  /\ Tic (start_state self) !! j = Some 0
  /\ supercooling (start_state self) !! j = Some 0
  /\ Tis_center (start_state self) !! j = Some 0
  /\ Tcmb (start_state self) !! j = Some 0.
Proof.
  intros Hj. unfold start_state. cbn -[zeros_like].
  rewrite !list_lookup_insert_ne by lia.
  rewrite lookup_zeros_like by lia. by repeat split.
Qed.

Lemma start_state_ric (self : Evolution) (j : nat) :
  (j < length (time self))%nat -> ric (start_state self) !! j = Some 0.
Proof.
  intros Hj. unfold start_state. cbn -[zeros_like]. by apply lookup_zeros_like.
Qed.

(** [run_constant_temperature] on a non-empty grid returns, and its result
    satisfies the invariant of the loop after the last iteration. *)
Lemma run_constant_temperature_inv (self : Evolution) (out : Stdout) :
  (0 < length (time self))%nat ->
  exists (s' : Evolution) (out' : Stdout),
    run_constant_temperature fsolve self out = (Ok s', out')
    /\ ct_inv fsolve (T_Fe self 0 0 - delta_T self) (start_state self)
         (length (time self) - 1) s'.
Proof.
  intros HN. rewrite run_constant_temperature_start by done.
  exact (ct_loop _ (start_state self) out (arrays_length_start_state self)).
Qed.

Lemma run_inv_final (self : Evolution) (out : Stdout) :
  (0 < length (time self))%nat ->
  exists (s' : Evolution) (out' : Stdout),
    run fsolve self out = (Ok s', out')
    /\ run_inv fsolve (start_state self) (length (time self) - 1) s'.
Proof.
  intros HN. rewrite run_start by done.
  exact (run_loop (start_state self) out (arrays_length_start_state self)).
Qed.

(** ** The samples of a finished run *)

Lemma ct_sample_law (self s' : Evolution) (j : nat) :
  frame s' = frame self -> arrays_length s' (length (time self)) ->
  (j < length (time self))%nat ->
  ct_sample fsolve (T_Fe self 0 0 - delta_T self) s' j ->
  ct_law fsolve self s' (Z.of_nat j).
Proof.
  intros Hf (L1 & L2 & L3 & L4 & _) Hj (rp & Hrp & Hs).
  exists rp. split; [apply getitem_pred; [lia | done]|].
  rewrite (icoregrowth_value_frame _ _ Hf), (dt_frame _ _ Hf),
    (T_Fe_frame _ _ Hf) in Hs.
  cbv zeta in Hs |- *. destruct Hs as (S1 & S2 & S3 & S4).
  split_and!; by apply getitem_nat.
Qed.

Lemma run_sample_law (self s' : Evolution) (j : nat) :
  frame s' = frame self -> arrays_length s' (length (time self)) ->
  (j < length (time self))%nat ->
  run_sample fsolve s' j -> run_law fsolve self s' (Z.of_nat j).
Proof.
  intros Hf (L1 & L2 & L3 & L4 & L5 & L6) Hj (Tcp & rp & HTcp & Hrp & Hs).
  exists Tcp, rp.
  split_and!; [apply getitem_pred; [lia | done].. |].
  rewrite (icoregrowth_value_frame _ _ Hf), (dt_frame _ _ Hf),
    (T_Fe_frame _ _ Hf), (T_is_frame _ _ Hf), (dTcmb_frame _ _ Hf) in Hs.
  cbv zeta in Hs |- *. destruct Hs as (S1 & S2 & S3 & S4 & S5 & S6).
  split_and!; by apply getitem_nat.
Qed.

(** Every step of a finished [run_constant_temperature] obeys [ct_law], and
    the samples from [length - 1] on are those of the start state. *)
Lemma run_constant_temperature_result (self : Evolution) (out : Stdout) :
  (0 < length (time self))%nat ->
  exists (s' : Evolution) (out' : Stdout),
    run_constant_temperature fsolve self out = (Ok s', out')
    /\ frame s' = frame self
    /\ arrays_length s' (length (time self))
    /\ (forall j : nat, (length (time self) - 1 <= j)%nat ->
          agree_at (start_state self) s' j)
    /\ (forall i : Z, (0 <= i <= Z.of_nat (length (time self)) - 2)%Z ->
          ct_law fsolve self s' i).
Proof.
  intros HN.
  destruct (run_constant_temperature_inv self out HN)
    as (s' & out' & Hrun & Hf & HL & _ & _ & Hrest & Hdone).
  exists s', out'. split_and!; [done | exact Hf | exact HL | exact Hrest |].
  intros i Hi. rewrite <- (Z2Nat.id i) by lia.
  apply ct_sample_law; [exact Hf | exact HL | lia |].
  apply Hdone. cbn -[zeros_like]. lia.
Qed.

Lemma run_result (self : Evolution) (out : Stdout) :
  (0 < length (time self))%nat ->
  exists (s' : Evolution) (out' : Stdout),
    run fsolve self out = (Ok s', out')
    /\ frame s' = frame self
    /\ arrays_length s' (length (time self))
    /\ (forall j : nat, (length (time self) - 1 <= j)%nat ->
          agree_at (start_state self) s' j)
    /\ (forall i : Z, (0 <= i <= Z.of_nat (length (time self)) - 2)%Z ->
          run_law fsolve self s' i).
Proof.
  intros HN.
  destruct (run_inv_final self out HN)
    as (s' & out' & Hrun & Hf & HL & Hrest & Hdone).
  exists s', out'. split_and!; [done | exact Hf | exact HL | exact Hrest |].
  intros i Hi. rewrite <- (Z2Nat.id i) by lia.
  apply run_sample_law; [exact Hf | exact HL | lia |].
  apply Hdone. cbn -[zeros_like]. lia.
Qed.

(** C4. In constant-temperature mode every step [i] of the run solves the
    growth-rate system with the fixed center temperature
    [T_Fe(0) - delta_T] and the radius stored at [i - 1], sets
    [ric[i] = ric[i-1] + dr * dt] and
    [supercooling[i] = |T_Fe(ric[i]) - Ti|]. The steps run are
    [0 .. N - 2]; at [i = 0] the index [i - 1] is [-1], the last sample. *)
Theorem constant_temperature_step_law (self : Evolution) (out : Stdout) :
  (0 < length (time self))%nat ->
  exists (s' : Evolution) (out' : Stdout),
    run_constant_temperature fsolve self out = (Ok s', out')
    /\ forall i : Z, (0 <= i <= Z.of_nat (length (time self)) - 2)%Z ->
       exists r_prev : R,
         getitem (ric s') (i - 1) = Ok r_prev
         /\ let T_center := T_Fe self 0 0 - delta_T self in
            let dT := icoregrowth_value fsolve self T_center r_prev 0 in
            let r := r_prev + fst dT * dt self in
            getitem (dric s') i = Ok (fst dT)
            /\ getitem (Tic s') i = Ok (snd dT)
            /\ getitem (ric s') i = Ok r
            /\ getitem (supercooling s') i
               = Ok (Rabs (T_Fe self r 0 - snd dT)).
Proof.
  intros HN.
  destruct (run_constant_temperature_result self out HN)
    as (s' & out' & Hrun & _ & _ & _ & Hlaw).
  exists s', out'. split; [done|]. intros i Hi. exact (Hlaw i Hi).
Qed.

(** C5. In evolving mode every step [i] of the run gives the solver the
    center temperature stored at [i - 1], and after the radius update sets
    [Tis_center[i] = Tis_center[i-1] + dTcmb(dr, ric[i]) * dt] and
    [Tcmb[i] = T_is(ric[i], Tis_center[i])]. The steps run are
    [0 .. N - 2]; at [i = 0] the index [i - 1] is [-1], the last sample. *)
Theorem evolving_step_law (self : Evolution) (out : Stdout) :
  (0 < length (time self))%nat ->
  exists (s' : Evolution) (out' : Stdout),
    run fsolve self out = (Ok s', out')
    /\ forall i : Z, (0 <= i <= Z.of_nat (length (time self)) - 2)%Z ->
       exists Tc_prev r_prev : R,
         getitem (Tis_center s') (i - 1) = Ok Tc_prev
         /\ getitem (ric s') (i - 1) = Ok r_prev
         /\ let dT := icoregrowth_value fsolve self Tc_prev r_prev 0 in
            let r := r_prev + fst dT * dt self in
            let Tc := Tc_prev + dTcmb self (fst dT) r * dt self in
            getitem (dric s') i = Ok (fst dT)
            /\ getitem (Tic s') i = Ok (snd dT)
            /\ getitem (ric s') i = Ok r
            /\ getitem (supercooling s') i
               = Ok (Rabs (T_Fe self r 0 - snd dT))
            /\ getitem (Tis_center s') i = Ok Tc
            /\ getitem (Tcmb s') i = Ok (T_is self r Tc).
Proof.
  intros HN.
  destruct (run_result self out HN) as (s' & out' & Hrun & _ & _ & _ & Hlaw).
  exists s', out'. split; [done|]. intros i Hi. exact (Hlaw i Hi).
Qed.

(** With two samples or more, the last sample of every array of a result
    that agrees there with the start state is zero. *)
Lemma last_sample_zero (self s' : Evolution) :
  (2 <= length (time self))%nat ->
  agree_at (start_state self) s' (length (time self) - 1) ->
  let last := (Z.of_nat (length (time self)) - 1)%Z in
  getitem (dric s') last = Ok 0
  /\ getitem (ric s') last = Ok 0
  /\ getitem (Tic s') last = Ok 0
  /\ getitem (supercooling s') last = Ok 0
  /\ getitem (Tis_center s') last = Ok 0
  /\ getitem (Tcmb s') last = Ok 0.
Proof.
  intros HN (A1 & A2 & A3 & A4 & A5 & A6) last.
  destruct (start_state_zero self (length (time self) - 1))
    as (Z1 & Z3 & Z4 & Z5 & Z6); [lia|].
  pose proof (start_state_ric self (length (time self) - 1)) as Z2.
  replace last with (Z.of_nat (length (time self) - 1)) by (unfold last; lia).
  split_and!; apply getitem_nat; [rewrite A1 | rewrite A2 | rewrite A3
    | rewrite A4 | rewrite A5 | rewrite A6]; try done.
  apply Z2. lia.
Qed.

(** Index [-1] is the last sample. *)
Lemma getitem_minus_one (a : list R) (v : R) :
  getitem a (Z.of_nat (length a) - 1) = Ok v -> getitem a (-1) = Ok v.
Proof.
  unfold getitem, norm_index. destruct a as [|x a]; [done|].
  replace (Z.of_nat (length (x :: a)) - 1)%Z
    with (Z.of_nat (length a)) by (simpl length; lia).
  destruct (Z.leb_spec 0 (Z.of_nat (length a))); [|lia].
  destruct (Z.ltb_spec (Z.of_nat (length a))
              (Z.of_nat (length (x :: a)))); [|simpl length in *; lia].
  change (0 <=? -1)%Z with false. cbv iota.
  destruct (Z.leb_spec (- Z.of_nat (length (x :: a))) (-1));
    [|simpl length in *; lia].
  replace (Z.to_nat (Z.of_nat (length (x :: a)) + -1))
    with (Z.to_nat (Z.of_nat (length a))) by (simpl length; lia).
  done.
Qed.

(** C3. After a complete run on a grid of two samples or more, the last
    sample of every array the loop writes is still the zero written by the
    reset (four arrays in constant-temperature mode, six in evolving mode),
    while the second-to-last sample is a computed one. *)
Theorem last_sample_left_zero (self : Evolution) (out : Stdout) :
  (2 <= length (time self))%nat ->
  let last := (Z.of_nat (length (time self)) - 1)%Z in
  (exists (s' : Evolution) (out' : Stdout),
      run_constant_temperature fsolve self out = (Ok s', out')
      /\ getitem (dric s') last = Ok 0
      /\ getitem (Tic s') last = Ok 0
      /\ getitem (ric s') last = Ok 0
      /\ getitem (supercooling s') last = Ok 0
      /\ ct_law fsolve self s' (last - 1))
  /\ (exists (s' : Evolution) (out' : Stdout),
         run fsolve self out = (Ok s', out')
         /\ getitem (dric s') last = Ok 0
         /\ getitem (Tic s') last = Ok 0
         /\ getitem (ric s') last = Ok 0
         /\ getitem (supercooling s') last = Ok 0
         /\ getitem (Tis_center s') last = Ok 0
         /\ getitem (Tcmb s') last = Ok 0
         /\ run_law fsolve self s' (last - 1)).
Proof.
  intros HN last. split.
  - destruct (run_constant_temperature_result self out)
      as (s' & out' & Hrun & _ & _ & Hrest & Hlaw); [lia|].
    destruct (last_sample_zero self s' HN (Hrest _ (le_n _)))
      as (Z1 & Z2 & Z3 & Z4 & _).
    exists s', out'. split_and!; try done. apply Hlaw. unfold last. lia.
  - destruct (run_result self out)
      as (s' & out' & Hrun & _ & _ & Hrest & Hlaw); [lia|].
    destruct (last_sample_zero self s' HN (Hrest _ (le_n _)))
      as (Z1 & Z2 & Z3 & Z4 & Z5 & Z6).
    exists s', out'. split_and!; try done. apply Hlaw. unfold last. lia.
Qed.

(** ** The first iteration *)

(** On a grid of two samples or more the first iteration of
    [run_constant_temperature] reads the radius at index [-1], which is
    zero, and stores what it computes at index 0. *)
Lemma first_step_constant_temperature (self : Evolution) (out : Stdout) :
  (2 <= length (time self))%nat ->
  exists (s' : Evolution) (out' : Stdout),
    run_constant_temperature fsolve self out = (Ok s', out')
    /\ getitem (ric s') (-1) = Ok 0
    /\ let T_center := T_Fe self 0 0 - delta_T self in
       let dT := icoregrowth_value fsolve self T_center 0 0 in
       let r := 0 + fst dT * dt self in
       getitem (dric s') 0 = Ok (fst dT)
       /\ getitem (Tic s') 0 = Ok (snd dT)
       /\ getitem (ric s') 0 = Ok r
       /\ getitem (supercooling s') 0 = Ok (Rabs (T_Fe self r 0 - snd dT)).
Proof.
  intros HN.
  destruct (run_constant_temperature_result self out)
    as (s' & out' & Hrun & _ & HL & Hrest & Hlaw); [lia|].
  destruct (last_sample_zero self s' HN (Hrest _ (le_n _)))
    as (_ & Z2 & _).
  destruct HL as (_ & L2 & _). rewrite <- L2 in Z2.
  apply getitem_minus_one in Z2.
  destruct (Hlaw 0%Z) as (rp & Hrp & Hs); [lia|].
  change (0 - 1)%Z with (-1)%Z in Hrp.
  assert (rp = 0) as -> by congruence.
  exists s', out'. by split_and!.
Qed.

(** The first iteration of [run] moreover reads the center temperature at
    index [-1], which is zero as well. *)
Lemma first_step_run (self : Evolution) (out : Stdout) :
  (2 <= length (time self))%nat ->
  exists (s' : Evolution) (out' : Stdout),
    run fsolve self out = (Ok s', out')
    /\ getitem (Tis_center s') (-1) = Ok 0
    /\ getitem (ric s') (-1) = Ok 0
    /\ let dT := icoregrowth_value fsolve self 0 0 0 in
       let r := 0 + fst dT * dt self in
       let Tc := 0 + dTcmb self (fst dT) r * dt self in
       getitem (dric s') 0 = Ok (fst dT)
       /\ getitem (Tic s') 0 = Ok (snd dT)
       /\ getitem (ric s') 0 = Ok r
       /\ getitem (supercooling s') 0 = Ok (Rabs (T_Fe self r 0 - snd dT))
       /\ getitem (Tis_center s') 0 = Ok Tc
       /\ getitem (Tcmb s') 0 = Ok (T_is self r Tc).
Proof.
  intros HN.
  destruct (run_result self out)
    as (s' & out' & Hrun & _ & HL & Hrest & Hlaw); [lia|].
  destruct (last_sample_zero self s' HN (Hrest _ (le_n _)))
    as (_ & Z2 & _ & _ & Z5 & _).
  destruct HL as (_ & L2 & _ & _ & L5 & _).
  rewrite <- L2 in Z2. rewrite <- L5 in Z5.
  apply getitem_minus_one in Z2. apply getitem_minus_one in Z5.
  destruct (Hlaw 0%Z) as (Tcp & rp & HTcp & Hrp & Hs); [lia|].
  change (0 - 1)%Z with (-1)%Z in Hrp, HTcp.
  assert (rp = 0) as -> by congruence.
  assert (Tcp = 0) as -> by congruence.
  exists s', out'. by split_and!.
Qed.

(** C2. On a grid of [N >= 2] samples both loops start at [i = 0]: the
    first iteration reads its previous state at index [-1], the last
    sample, which is zero after the reset, and its results replace the
    initial conditions at index 0; every index [0 .. N - 2] holds a computed
    sample and index [N - 1] is never written. *)
Theorem loop_starts_at_index_zero (self : Evolution) (out : Stdout) :
  (2 <= length (time self))%nat ->
  let last := (Z.of_nat (length (time self)) - 1)%Z in
  (exists (s' : Evolution) (out' : Stdout),
      run_constant_temperature fsolve self out = (Ok s', out')
      /\ getitem (ric s') (-1) = Ok 0
      /\ (let T_center := T_Fe self 0 0 - delta_T self in
          let dT := icoregrowth_value fsolve self T_center 0 0 in
          let r := 0 + fst dT * dt self in
          getitem (dric s') 0 = Ok (fst dT)
          /\ getitem (Tic s') 0 = Ok (snd dT)
          /\ getitem (ric s') 0 = Ok r
          /\ getitem (supercooling s') 0
             = Ok (Rabs (T_Fe self r 0 - snd dT)))
      /\ (forall i : Z, (0 <= i <= last - 1)%Z -> ct_law fsolve self s' i)
      /\ getitem (dric s') last = Ok 0
      /\ getitem (Tic s') last = Ok 0
      /\ getitem (ric s') last = Ok 0
      /\ getitem (supercooling s') last = Ok 0)
  /\ (exists (s' : Evolution) (out' : Stdout),
         run fsolve self out = (Ok s', out')
         /\ getitem (Tis_center s') (-1) = Ok 0
         /\ getitem (ric s') (-1) = Ok 0
         /\ (let dT := icoregrowth_value fsolve self 0 0 0 in
             let r := 0 + fst dT * dt self in
             let Tc := 0 + dTcmb self (fst dT) r * dt self in
             getitem (dric s') 0 = Ok (fst dT)
             /\ getitem (Tic s') 0 = Ok (snd dT)
             /\ getitem (ric s') 0 = Ok r
             /\ getitem (supercooling s') 0
                = Ok (Rabs (T_Fe self r 0 - snd dT))
             /\ getitem (Tis_center s') 0 = Ok Tc
             /\ getitem (Tcmb s') 0 = Ok (T_is self r Tc))
         /\ (forall i : Z, (0 <= i <= last - 1)%Z -> run_law fsolve self s' i)
         /\ getitem (dric s') last = Ok 0
         /\ getitem (Tic s') last = Ok 0
         /\ getitem (ric s') last = Ok 0
         /\ getitem (supercooling s') last = Ok 0
         /\ getitem (Tis_center s') last = Ok 0
         /\ getitem (Tcmb s') last = Ok 0).
Proof.
  intros HN last. split.
  - destruct (first_step_constant_temperature self out HN)
      as (s' & out' & Hrun & Hprev & Hfirst).
    destruct (run_constant_temperature_result self out)
      as (s2 & out2 & Hrun2 & _ & _ & Hrest & Hlaw); [lia|].
    assert (s2 = s') as -> by congruence.
    destruct (last_sample_zero self s' HN (Hrest _ (le_n _)))
      as (Z1 & Z2 & Z3 & Z4 & _).
    exists s', out'. split_and!; try done.
    intros i Hi. apply Hlaw. unfold last in Hi. lia.
  - destruct (first_step_run self out HN)
      as (s' & out' & Hrun & HTprev & Hprev & Hfirst).
    destruct (run_result self out)
      as (s2 & out2 & Hrun2 & _ & _ & Hrest & Hlaw); [lia|].
    assert (s2 = s') as -> by congruence.
    destruct (last_sample_zero self s' HN (Hrest _ (le_n _)))
      as (Z1 & Z2 & Z3 & Z4 & Z5 & Z6).
    exists s', out'. split_and!; try done.
    intros i Hi. apply Hlaw. unfold last in Hi. lia.
Qed.

(** ** The scenario delta_T = 100, Qcmb = 1e-12 *)

(** With the default constants, undercooling 100, zero radius and reference
    temperature [T_Fe(0) - 100], no root of [func] has its interface
    temperature at [T_Fe(0) - 100]: the heat balance would force a zero
    growth rate and the kinetic law a growth rate of 1. *)
Lemma root_off_center_constant (Qcmb dr Ti : R) :
  let self := init_state 100 Qcmb in
  func self (dr, Ti) (T_Fe self 0 0 - 100) 0 0 = (0, 0) ->
  Ti <> T_Fe self 0 0 - 100.
Proof.
  intros self Hroot HTi. unfold func in Hroot.
  rewrite T_is_center, !T_Fe_center in Hroot. rewrite T_Fe_center in HTi.
  subst self. cbn [fst snd init_state TFe0 G rho0 cp LFe rhol u] in *.
  injection Hroot as H0 H1. subst Ti. lra.
Qed.

(** The same with reference temperature 0, which is what [run] passes at
    its first iteration. *)
Lemma root_off_center_evolving (Qcmb dr Ti : R) :
  let self := init_state 100 Qcmb in
  func self (dr, Ti) 0 0 0 = (0, 0) -> Ti <> T_Fe self 0 0 - 100.
Proof.
  intros self Hroot HTi. unfold func in Hroot.
  rewrite T_is_center, !T_Fe_center in Hroot. rewrite T_Fe_center in HTi.
  subst self. cbn [fst snd init_state TFe0 G rho0 cp LFe rhol u] in *.
  injection Hroot as H0 H1. subst Ti. lra.
Qed.

(** [exact_root] is a root of [func] when [a] is not zero and the
    discriminant is not negative. *)
Lemma exact_root_is_root (self : Evolution) (T r cc : R) :
  let D := T_Fe self r cc - T_is self r T in
  let a := G self * (rho0 self * (cp self * D + LFe self)) in
  let b := rhol self * cp self * u self in
  a <> 0 -> 0 <= b ^ 2 + 4 * a * b * D ->
  func self (exact_root self T r cc) T r cc = (0, 0).
Proof.
  intros D a b Ha Hdisc. unfold func, exact_root. cbn [fst snd].
  fold D. fold a. fold b.
  set (sq := sqrt (b ^ 2 + 4 * a * b * D)).
  assert (Hsq : sq * sq = b ^ 2 + 4 * a * b * D) by (by apply sqrt_sqrt).
  set (x := (sq - b) / (2 * a)).
  assert (Hx : a * x ^ 2 + b * x - b * D = 0).
  { unfold x. apply (Rmult_eq_reg_l (4 * a)); [|lra].
    field_simplify; [|done]. nra. }
  f_equal.
  - ring.
  - replace (T_Fe self r cc - x - T_is self r T) with (D - x)
      by (unfold D; ring).
    unfold a in Hx. nra.
Qed.

(** C1. In the scenario delta_T = 100, Qcmb = 1e-12 the values written to
    [Tic[0]] and [supercooling[0]] before the loop do not survive it: after
    either run they hold the interface temperature of the first solve and
    its distance to the melting temperature at the first radius, and when
    that solve returns a root of [func] the interface temperature differs
    from [T_Fe(0) - 100]. *)
Theorem initial_sample_overwritten :
  let self := init_state 100 1e-12 in
  let T_center := T_Fe self 0 0 - 100 in
  (exists (s' : Evolution) (out' : Stdout),
      run_constant_temperature fsolve self [] = (Ok s', out')
      /\ let dT := icoregrowth_value fsolve self T_center 0 0 in
         getitem (Tic s') 0 = Ok (snd dT)
         /\ getitem (supercooling s') 0
            = Ok (Rabs (T_Fe self (0 + fst dT * dt self) 0 - snd dT))
         /\ (func self dT T_center 0 0 = (0, 0) -> snd dT <> T_center))
  /\ (exists (s' : Evolution) (out' : Stdout),
         run fsolve self [] = (Ok s', out')
         /\ let dT := icoregrowth_value fsolve self 0 0 0 in
            getitem (Tic s') 0 = Ok (snd dT)
            /\ getitem (supercooling s') 0
               = Ok (Rabs (T_Fe self (0 + fst dT * dt self) 0 - snd dT))
            /\ (func self dT 0 0 0 = (0, 0) -> snd dT <> T_center)).
Proof.
  intros self T_center.
  assert (HN : (2 <= length (time self))%nat).
  { unfold self. rewrite length_time_init. lia. }
  split.
  - destruct (first_step_constant_temperature self [] HN)
      as (s' & out' & Hrun & _ & _ & HTic & _ & Hsc).
    exists s', out'. split; [done|]. cbv zeta.
    split_and!; [exact HTic | exact Hsc |].
    intros Hroot.
    apply (root_off_center_constant 1e-12
             (fst (icoregrowth_value fsolve self T_center 0 0))).
    by rewrite <- surjective_pairing.
  - destruct (first_step_run self [] HN)
      as (s' & out' & Hrun & _ & _ & _ & HTic & _ & Hsc & _).
    exists s', out'. split; [done|]. cbv zeta.
    split_and!; [exact HTic | exact Hsc |].
    intros Hroot.
    apply (root_off_center_evolving 1e-12
             (fst (icoregrowth_value fsolve self 0 0 0))).
    by rewrite <- surjective_pairing.
Qed.

(** ** Monotonicity of the radius *)

(** Along the steps of a finished [run_constant_temperature], radii stored
    [n] steps apart are ordered when none of the solves of the steps
    [1 .. hi] returned a negative growth rate. The solve of step [j] is the
    one at the radius stored at [j - 1]. *)
Lemma ct_law_radius_le (self s' : Evolution) (hi : Z) :
  0 <= dt self ->
  (forall i : Z, (0 <= i <= hi)%Z -> ct_law fsolve self s' i) ->
  (forall (j : Z) (rp : R),
      (1 <= j <= hi)%Z ->
      getitem (ric s') (j - 1) = Ok rp ->
      0 <= fst (icoregrowth_value fsolve self
                  (T_Fe self 0 0 - delta_T self) rp 0)) ->
  forall (n : nat) (i : Z) (ri rj : R),
    (0 <= i)%Z -> (i + Z.of_nat n <= hi)%Z ->
    getitem (ric s') i = Ok ri ->
    getitem (ric s') (i + Z.of_nat n) = Ok rj ->
    ri <= rj.
Proof.
  intros Hdt Hlaw Hdr n.
  induction n as [|n IH]; intros i ri rj Hi Hhi Hri Hrj.
  - replace (i + Z.of_nat 0)%Z with i in Hrj by lia.
    assert (ri = rj) as -> by congruence. lra.
  - destruct (Hlaw (i + Z.of_nat (S n))%Z) as (rp & Hrp & Hs); [lia|].
    cbv zeta in Hs. destruct Hs as (_ & _ & Hr & _).
    pose proof (Hdr (i + Z.of_nat (S n))%Z rp ltac:(lia) Hrp) as Hpos.
    replace (i + Z.of_nat (S n) - 1)%Z with (i + Z.of_nat n)%Z in Hrp by lia.
    assert (Hle : ri <= rp) by (apply (IH i); [lia | lia | done | done]).
    assert (rj = rp + fst (icoregrowth_value fsolve self
                             (T_Fe self 0 0 - delta_T self) rp 0) * dt self)
      as -> by congruence.
    assert (0 <= fst (icoregrowth_value fsolve self
                        (T_Fe self 0 0 - delta_T self) rp 0) * dt self)
      by (by apply Rmult_le_pos).
    lra.
Qed.

(** A step whose solve returned a negative growth rate lowers the radius
    when the time step is positive. *)
Lemma ct_law_radius_lt (self s' : Evolution) (j : Z) (rp rj : R) :
  0 < dt self ->
  ct_law fsolve self s' j ->
  getitem (ric s') (j - 1) = Ok rp ->
  getitem (ric s') j = Ok rj ->
  fst (icoregrowth_value fsolve self (T_Fe self 0 0 - delta_T self) rp 0)
  < 0 ->
  rj < rp.
Proof.
  intros Hdt (rq & Hrq & Hs) Hrp Hrj Hneg.
  cbv zeta in Hs. destruct Hs as (_ & _ & Hr & _).
  assert (rq = rp) as -> by congruence.
  assert (rj = rp + fst (icoregrowth_value fsolve self
                           (T_Fe self 0 0 - delta_T self) rp 0) * dt self)
    as -> by congruence.
  nra.
Qed.

(** C9, amended. The solve of step [j] of [run_constant_temperature] is the
    one at the radius stored at [j - 1]. With a time step that is not
    negative, the radius is non-decreasing over the computed samples
    [0 .. N - 2] provided the solve of every step [1 .. N - 2] of the run
    returned a growth rate that is not negative. The engine stores the rate
    as it comes: with a positive time step, a step whose solve returned a
    negative rate lowers the radius. *)
Theorem radius_nondecreasing (self : Evolution) (out : Stdout) :
  (0 < length (time self))%nat ->
  0 <= dt self ->
  exists (s' : Evolution) (out' : Stdout),
    run_constant_temperature fsolve self out = (Ok s', out')
    /\ ((forall (j : Z) (rp : R),
            (1 <= j <= Z.of_nat (length (time self)) - 2)%Z ->
            getitem (ric s') (j - 1) = Ok rp ->
            0 <= fst (icoregrowth_value fsolve self
                        (T_Fe self 0 0 - delta_T self) rp 0)) ->
        forall (i j : Z) (ri rj : R),
          (0 <= i <= j)%Z -> (j <= Z.of_nat (length (time self)) - 2)%Z ->
          getitem (ric s') i = Ok ri -> getitem (ric s') j = Ok rj ->
          ri <= rj)
    /\ (forall (j : Z) (rp rj : R),
           0 < dt self ->
           (1 <= j <= Z.of_nat (length (time self)) - 2)%Z ->
           getitem (ric s') (j - 1) = Ok rp ->
           getitem (ric s') j = Ok rj ->
           fst (icoregrowth_value fsolve self
                  (T_Fe self 0 0 - delta_T self) rp 0) < 0 ->
           rj < rp).
Proof.
  intros HN Hdt.
  destruct (run_constant_temperature_result self out HN)
    as (s' & out' & Hrun & _ & _ & _ & Hlaw).
  exists s', out'. split_and!; [done | |].
  - intros Hdr i j ri rj Hij Hj Hri Hrj.
    apply (ct_law_radius_le self s' _ Hdt Hlaw Hdr (Z.to_nat (j - i)) i);
      [lia | lia | done |].
    by replace (i + Z.of_nat (Z.to_nat (j - i)))%Z with j by lia.
  - intros j rp rj Hpos Hj Hrp Hrj Hneg.
    apply (ct_law_radius_lt self s' j rp rj); [done | | done | done | done].
    apply Hlaw. lia.
Qed.

(** ** Configurations are not validated *)



End Properties.

(** ** The properties at concrete inputs *)

Lemma dt_init_state (delta_T Qcmb : R) : 0 < dt (init_state delta_T Qcmb).
Proof. cbn [dt init_state]. lra. Defined.

Lemma loop_starts_at_index_zero_witness :
  (2 <= length (time (init_state 100 1e-12)))%nat
  /\ exists (s' : Evolution) (out' : Stdout),
       run fsolve_stalled (init_state 100 1e-12) [] = (Ok s', out')
       /\ getitem (Tis_center s') (-1) = Ok 0
       /\ getitem (dric s') 0 = Ok 1e-9
       /\ getitem (Tic s') 0 = Ok 0
       /\ getitem (Tic s') 999 = Ok 0.
Proof.
  assert (HN : (2 <= length (time (init_state 100 1e-12)))%nat)
    by (rewrite length_time_init; lia).
  split; [exact HN|].
  destruct (loop_starts_at_index_zero fsolve_stalled _ [] HN)
    as [_ (s' & out' & Hrun & HTprev & _ & Hfirst & _ & _ & Hlast & _)].
  cbv zeta in Hfirst. destruct Hfirst as (Hd & HT & _).
  rewrite length_time_init in Hlast.
  exists s', out'. repeat split; [exact Hrun | exact HTprev | exact Hd
    | exact HT | exact Hlast].
Defined.

Lemma last_sample_left_zero_witness :
  (2 <= length (time (init_state 100 1e-12)))%nat
  /\ exists (s' : Evolution) (out' : Stdout),
       run_constant_temperature fsolve_stalled (init_state 100 1e-12) []
       = (Ok s', out')
       /\ getitem (ric s') 999 = Ok 0
       /\ getitem (supercooling s') 999 = Ok 0.
Proof.
  assert (HN : (2 <= length (time (init_state 100 1e-12)))%nat)
    by (rewrite length_time_init; lia).
  split; [exact HN|].
  destruct (last_sample_left_zero fsolve_stalled _ [] HN)
    as [(s' & out' & Hrun & _ & _ & Hr & Hs & _) _].
  rewrite length_time_init in Hr, Hs.
  exists s', out'. repeat split; [exact Hrun | exact Hr | exact Hs].
Defined.

Lemma constant_temperature_step_law_witness :
  (0 < length (time (init_state 100 1e-12)))%nat
  /\ exists (s' : Evolution) (out' : Stdout),
       run_constant_temperature fsolve_stalled (init_state 100 1e-12) []
       = (Ok s', out')
       /\ getitem (dric s') 0 = Ok 1e-9
       /\ getitem (Tic s') 0 = Ok (T_Fe (init_state 100 1e-12) 0 0 - 100)
       /\ getitem (dric s') 998 = Ok 1e-9.
Proof.
  assert (HN : (0 < length (time (init_state 100 1e-12)))%nat)
    by (rewrite length_time_init; lia).
  split; [exact HN|].
  destruct (constant_temperature_step_law fsolve_stalled _ [] HN)
    as (s' & out' & Hrun & Hlaw).
  rewrite length_time_init in Hlaw.
  destruct (Hlaw 0%Z) as (rp0 & _ & H0); [lia|].
  destruct (Hlaw 998%Z) as (rp1 & _ & H1); [lia|].
  cbv zeta in H0, H1.
  destruct H0 as (Hd0 & HT0 & _). destruct H1 as (Hd1 & _).
  exists s', out'. repeat split; [exact Hrun | exact Hd0 | exact HT0
    | exact Hd1].
Defined.

Lemma evolving_step_law_witness :
  (0 < length (time (init_state 100 1e-12)))%nat
  /\ exists (s' : Evolution) (out' : Stdout),
       run fsolve_stalled (init_state 100 1e-12) [] = (Ok s', out')
       /\ exists Tc_prev : R,
            getitem (Tis_center s') 997 = Ok Tc_prev
            /\ getitem (dric s') 998 = Ok 1e-9
            /\ getitem (Tic s') 998 = Ok Tc_prev.
Proof.
  assert (HN : (0 < length (time (init_state 100 1e-12)))%nat)
    by (rewrite length_time_init; lia).
  split; [exact HN|].
  destruct (evolving_step_law fsolve_stalled _ [] HN)
    as (s' & out' & Hrun & Hlaw).
  rewrite length_time_init in Hlaw.
  destruct (Hlaw 998%Z) as (Tcp & rp & HTcp & _ & H1); [lia|].
  cbv zeta in H1. destruct H1 as (Hd & HT & _).
  exists s', out'. split; [exact Hrun|].
  exists Tcp. repeat split; [exact HTcp | exact Hd | exact HT].
Defined.

Lemma icoregrowth_flags_nonconvergence_witness :
  fs_ier (icoregrowth_solve fsolve_stalled (init_state 100 1e-12) 6400 0 0)
  <> 1%Z
  /\ icoregrowth fsolve_stalled (init_state 100 1e-12) 6400 0 0 []
     = (Ok (1e-9, 6400),
        [mkPrinted 5 (1e-9, 6400)
           "The iteration is not making good progress"]).
Proof.
  assert (H : fs_ier (icoregrowth_solve fsolve_stalled
                        (init_state 100 1e-12) 6400 0 0) <> 1%Z)
    by (cbn; discriminate).
  split; [exact H|].
  exact (icoregrowth_flags_nonconvergence fsolve_stalled
           (init_state 100 1e-12) 6400 0 0 [] H).
Defined.

Lemma radius_nondecreasing_witness :
  let self := init_state 100 1e-12 in
  (0 < length (time self))%nat
  /\ 0 <= dt self
  /\ exists (s' : Evolution) (out' : Stdout),
       run_constant_temperature (fsolve_exact self) self [] = (Ok s', out')
       /\ (forall (j : Z) (rp : R),
              (1 <= j <= 998)%Z ->
              getitem (ric s') (j - 1) = Ok rp ->
              0 <= fst (icoregrowth_value (fsolve_exact self) self
                          (T_Fe self 0 0 - delta_T self) rp 0))
       /\ forall ri rj : R,
            getitem (ric s') 0 = Ok ri -> getitem (ric s') 998 = Ok rj ->
            ri <= rj.
Proof.
  intros self.
  assert (HN : (0 < length (time self))%nat)
    by (unfold self; rewrite length_time_init; lia).
  assert (Hdt : 0 <= dt self) by (apply Rlt_le, dt_init_state).
  split_and!; [exact HN | exact Hdt |].
  destruct (radius_nondecreasing (fsolve_exact self) self [] HN Hdt)
    as (s' & out' & Hrun & Hmono & _).
  unfold self in Hmono. rewrite length_time_init in Hmono.
  assert (Hdr : forall (j : Z) (rp : R),
             (1 <= j <= 998)%Z ->
             getitem (ric s') (j - 1) = Ok rp ->
             0 <= fst (icoregrowth_value (fsolve_exact self) self
                         (T_Fe self 0 0 - delta_T self) rp 0)).
  { intros j rp _ _.
    cbn [icoregrowth_value icoregrowth_solve fsolve_exact fs_x fst snd
           exact_root].
    apply Rmult_le_pos; [unfold self; cbn [G init_state]; lra|].
    apply pow2_ge_0. }
  exists s', out'. split_and!; [exact Hrun | exact Hdr |].
  intros ri rj Hri Hrj.
  apply (Hmono Hdr 0%Z 998%Z); [lia | lia | done | done].
Defined.

(** C9, as stated, fails. An undercooling of 1e-13 is positive, and below
    the resolution of a double at 6500, where [T_Fe(0) - delta_T] is
    [T_Fe(0)] itself: the residuals are those of zero undercooling, whose
    root has a zero growth rate. With a solve that converges there at a rate
    of rounding level below zero, [fsolve_rounding], every step lowers the
    radius: the radius at index 1 is below the radius at index 0, and the
    radius at index 998 below that at index 997. *)
Lemma radius_decreases_with_rounded_rate :
  let self := init_state 1e-13 1e-12 in
  0 < delta_T self
  /\ exists (s' : Evolution) (out' : Stdout),
       run_constant_temperature fsolve_rounding self [] = (Ok s', out')
       /\ (exists r0 r1 : R,
              getitem (ric s') 0 = Ok r0
              /\ getitem (ric s') 1 = Ok r1
              /\ r1 < r0)
       /\ (exists r997 r998 : R,
              getitem (ric s') 997 = Ok r997
              /\ getitem (ric s') 998 = Ok r998
              /\ r998 < r997).
Proof.
  intros self. split; [unfold self; cbn [delta_T init_state]; lra|].
  destruct (run_constant_temperature_result fsolve_rounding self [])
    as (s' & out' & Hrun & _ & _ & _ & Hlaw);
    [unfold self; rewrite length_time_init; lia|].
  unfold self in Hlaw. rewrite length_time_init in Hlaw. fold self in Hlaw.
  pose proof (dt_init_state 1e-13 1e-12) as Hdt. fold self in Hdt.
  assert (Hstep : forall j : Z, (1 <= j <= 998)%Z ->
             exists rp rj : R,
               getitem (ric s') (j - 1) = Ok rp
               /\ getitem (ric s') j = Ok rj
               /\ rj < rp).
  { intros j Hj. destruct (Hlaw j) as (rp & Hrp & Hs); [lia|].
    cbv zeta in Hs. destruct Hs as (_ & _ & Hr & _).
    eexists rp, _. split_and!; [exact Hrp | exact Hr |].
    cbn [icoregrowth_value icoregrowth_solve fsolve_rounding fs_x fst].
    nra. }
  exists s', out'. split_and!; [exact Hrun | |].
  - destruct (Hstep 1%Z) as (r0 & r1 & H0 & H1 & Hlt); [lia|].
    change (1 - 1)%Z with 0%Z in H0.
    exists r0, r1. split_and!; [exact H0 | exact H1 | exact Hlt].
  - destruct (Hstep 998%Z) as (r0 & r1 & H0 & H1 & Hlt); [lia|].
    change (998 - 1)%Z with 997%Z in H0.
    exists r0, r1. split_and!; [exact H0 | exact H1 | exact Hlt].
Qed.


(** C1 at a solver that converges: with [fsolve_exact] each run ends with an
    interface temperature at index 0 that is not [T_Fe(0) - 100]. *)
Lemma initial_sample_overwritten_exact :
  let self := init_state 100 1e-12 in
  (exists (s' : Evolution) (out' : Stdout) (Ti : R),
      run_constant_temperature (fsolve_exact self) self [] = (Ok s', out')
      /\ getitem (Tic s') 0 = Ok Ti
      /\ Ti <> T_Fe self 0 0 - 100)
  /\ (exists (s' : Evolution) (out' : Stdout) (Ti : R),
         run (fsolve_exact self) self [] = (Ok s', out')
         /\ getitem (Tic s') 0 = Ok Ti
         /\ Ti <> T_Fe self 0 0 - 100).
Proof.
  intros self.
  assert (HN : (2 <= length (time self))%nat).
  { unfold self. rewrite length_time_init. lia. }
  split.
  - destruct (first_step_constant_temperature (fsolve_exact self) self [] HN)
      as (s' & out' & Hrun & _ & _ & HTic & _).
    eexists s', out', _. split_and!; [exact Hrun | exact HTic |].
    apply (root_off_center_constant 1e-12
             (fst (exact_root self (T_Fe self 0 0 - 100) 0 0))).
    rewrite <- surjective_pairing. apply exact_root_is_root.
    + unfold self. rewrite !T_Fe_center, !T_is_center.
      cbn [init_state TFe0 G rho0 cp LFe rhol u]. lra.
    + unfold self. rewrite !T_Fe_center, !T_is_center.
      cbn [init_state TFe0 G rho0 cp LFe rhol u]. lra.
  - destruct (first_step_run (fsolve_exact self) self [] HN)
      as (s' & out' & Hrun & _ & _ & _ & HTic & _).
    eexists s', out', _. split_and!; [exact Hrun | exact HTic |].
    apply (root_off_center_evolving 1e-12
             (fst (exact_root self 0 0 0))).
    rewrite <- surjective_pairing. apply exact_root_is_root.
    + unfold self. rewrite !T_Fe_center, !T_is_center.
      cbn [init_state TFe0 G rho0 cp LFe rhol u]. lra.
    + unfold self. rewrite !T_Fe_center, !T_is_center.
      cbn [init_state TFe0 G rho0 cp LFe rhol u]. lra.
Qed.

(** * Further properties of the engine *)

(** ** Methods only append to standard output *)

Lemma appends_only_ret {A : Type} (a : A) : appends_only (ret a).
Proof. exists (Ok a), []. intros out. unfold ret. by rewrite app_nil_r. Qed.

Lemma appends_only_lift {A : Type} (r : Res A) : appends_only (lift r).
Proof. exists r, []. intros out. unfold lift. by rewrite app_nil_r. Qed.

Lemma appends_only_print (l : Printed) : appends_only (print l).
Proof. exists (Ok tt), [l]. intros out. reflexivity. Qed.

Lemma appends_only_bind {A B : Type} (m : M A) (k : A -> M B) :
  appends_only m -> (forall a : A, appends_only (k a)) ->
  appends_only (bind m k).
Proof.
  intros (r & l1 & Hm) Hk. destruct r as [a|e].
  - destruct (Hk a) as (r2 & l2 & Hka). exists r2, (l1 ++ l2).
    intros out. unfold bind. by rewrite Hm, Hka, app_assoc.
  - exists (Raise e), l1. intros out. unfold bind. by rewrite Hm.
Qed.

Lemma appends_only_for_each {A St : Type} (body : St -> A -> M St)
    (xs : list A) (s : St) :
  (forall (s1 : St) (x : A), appends_only (body s1 x)) ->
  appends_only (for_each xs body s).
Proof.
  intros Hbody. revert s. induction xs as [|x xs IH]; intros s; simpl.
  - apply appends_only_ret.
  - apply appends_only_bind; [apply Hbody | apply IH].
Qed.

Lemma appends_only_reinitilization (self : Evolution) :
  appends_only (reinitilization self).
Proof. apply appends_only_ret. Qed.

Ltac appends_only_steps :=
  repeat first
    [ apply appends_only_ret
    | apply appends_only_lift
    | apply appends_only_print
    | apply appends_only_bind; [|intros ?]
    | progress cbv zeta ].

Lemma appends_only_initial_conditions (T_center : R) (self : Evolution) :
  appends_only (initial_conditions T_center self).
Proof.
  unfold initial_conditions, store_dric, store_Tic, store_supercooling,
    store_Tis_center, store_Tcmb.
  appends_only_steps.
Qed.

(** The attributes other than the six state arrays decide the reset. *)
Lemma reinitilization_frame (a b : Evolution) (out : Stdout) :
  frame a = frame b -> reinitilization a out = reinitilization b out.
Proof.
  intros H.
  change (reinitilization (frame a) out = reinitilization (frame b) out).
  by rewrite H.
Qed.

Section Coverage.

Variable fsolve : Fsolve.

Lemma appends_only_icoregrowth (self : Evolution) (T r cc : R) :
  appends_only (icoregrowth fsolve self T r cc).
Proof.
  exists (Ok (icoregrowth_value fsolve self T r cc)),
    (icoregrowth_printed fsolve self T r cc).
  intros out. apply icoregrowth_eq.
Qed.

Lemma appends_only_step_constant_temperature (T_center : R)
    (self : Evolution) (it : Z * R) :
  appends_only (step_constant_temperature fsolve T_center self it).
Proof.
  unfold step_constant_temperature, store_dric, store_Tic, store_ric,
    store_supercooling.
  repeat first
    [ apply appends_only_icoregrowth
    | apply appends_only_ret
    | apply appends_only_lift
    | apply appends_only_bind; [|intros ?]
    | progress cbv zeta ].
Qed.

Lemma appends_only_step_run (self : Evolution) (it : Z * R) :
  appends_only (step_run fsolve self it).
Proof.
  unfold step_run, store_dric, store_Tic, store_ric, store_supercooling,
    store_Tis_center, store_Tcmb.
  repeat first
    [ apply appends_only_icoregrowth
    | apply appends_only_ret
    | apply appends_only_lift
    | apply appends_only_bind; [|intros ?]
    | progress cbv zeta ].
Qed.

Lemma appends_only_run_constant_temperature (self : Evolution) :
  appends_only (run_constant_temperature fsolve self).
Proof.
  unfold run_constant_temperature.
  apply appends_only_bind; [apply appends_only_reinitilization|].
  intros s1. cbv zeta.
  apply appends_only_bind; [apply appends_only_initial_conditions|].
  intros s2. apply appends_only_for_each.
  intros s3 x. apply appends_only_step_constant_temperature.
Qed.

Lemma appends_only_run (self : Evolution) : appends_only (run fsolve self).
Proof.
  unfold run.
  apply appends_only_bind; [apply appends_only_reinitilization|].
  intros s1. cbv zeta.
  apply appends_only_bind; [apply appends_only_initial_conditions|].
  intros s2. apply appends_only_for_each.
  intros s3 x. apply appends_only_step_run.
Qed.

Lemma run_constant_temperature_frame (a b : Evolution) (out : Stdout) :
  frame a = frame b ->
  run_constant_temperature fsolve a out
  = run_constant_temperature fsolve b out.
Proof.
  intros H. unfold run_constant_temperature, bind.
  by rewrite (reinitilization_frame a b out H).
Qed.

Lemma run_frame (a b : Evolution) (out : Stdout) :
  frame a = frame b -> run fsolve a out = run fsolve b out.
Proof.
  intros H. unfold run, bind.
  by rewrite (reinitilization_frame a b out H).
Qed.

(** X1. Both run methods depend on [self] only through its constants and
    its time grid: two objects that differ in their six state arrays alone
    give the same result and the same output. *)
Theorem runs_ignore_stale_arrays (a b : Evolution) (out : Stdout) :
  frame a = frame b ->
  run_constant_temperature fsolve a out
  = run_constant_temperature fsolve b out
  /\ run fsolve a out = run fsolve b out.
Proof.
  intros H. split.
  - by apply run_constant_temperature_frame.
  - by apply run_frame.
Qed.

(** A run on a non-empty grid returns one state and appends one list of
    lines, whatever was printed before. *)
Lemma run_constant_temperature_uniform (self : Evolution) :
  (0 < length (time self))%nat ->
  exists (s' : Evolution) (lines : Stdout),
    frame s' = frame self
    /\ forall out : Stdout,
         run_constant_temperature fsolve self out = (Ok s', out ++ lines).
Proof.
  intros HN.
  destruct (appends_only_run_constant_temperature self) as (r & lines & Hr).
  destruct (run_constant_temperature_result fsolve self [] HN)
    as (s' & out' & Hrun & Hf & _).
  rewrite Hr in Hrun. injection Hrun as -> _.
  by exists s', lines.
Qed.

Lemma run_uniform (self : Evolution) :
  (0 < length (time self))%nat ->
  exists (s' : Evolution) (lines : Stdout),
    frame s' = frame self
    /\ forall out : Stdout, run fsolve self out = (Ok s', out ++ lines).
Proof.
  intros HN.
  destruct (appends_only_run self) as (r & lines & Hr).
  destruct (run_result fsolve self [] HN) as (s' & out' & Hrun & Hf & _).
  rewrite Hr in Hrun. injection Hrun as -> _.
  by exists s', lines.
Qed.

(** X2. On a non-empty grid each run method returns a state and appends
    lines that do not depend on what was printed before, earlier output is
    kept as it is, and running the method again on its own result returns
    the same state and appends the same lines. *)
Theorem runs_append_and_repeat (self : Evolution) :
  (0 < length (time self))%nat ->
  (exists (s' : Evolution) (lines : Stdout),
      (forall out : Stdout,
          run_constant_temperature fsolve self out = (Ok s', out ++ lines))
      /\ (forall out : Stdout,
             run_constant_temperature fsolve s' out = (Ok s', out ++ lines)))
  /\ (exists (s' : Evolution) (lines : Stdout),
         (forall out : Stdout, run fsolve self out = (Ok s', out ++ lines))
         /\ (forall out : Stdout, run fsolve s' out = (Ok s', out ++ lines))).
Proof.
  intros HN. split.
  - destruct (run_constant_temperature_uniform self HN)
      as (s' & lines & Hf & Hrun).
    exists s', lines. split; [done|]. intros out.
    by rewrite (run_constant_temperature_frame s' self out Hf).
  - destruct (run_uniform self HN) as (s' & lines & Hf & Hrun).
    exists s', lines. split; [done|]. intros out.
    by rewrite (run_frame s' self out Hf).
Qed.

(** X3. A run changes nothing but the six state arrays, and leaves each of
    them as long as the time grid: the constants, the time grid, the time in
    years and the time step of the result are those of [self]. *)
Theorem runs_keep_constants_and_shape (self : Evolution) (out : Stdout) :
  (0 < length (time self))%nat ->
  (exists (s' : Evolution) (out' : Stdout),
      run_constant_temperature fsolve self out = (Ok s', out')
      /\ frame s' = frame self
      /\ arrays_length s' (length (time self)))
  /\ (exists (s' : Evolution) (out' : Stdout),
         run fsolve self out = (Ok s', out')
         /\ frame s' = frame self
         /\ arrays_length s' (length (time self))).
Proof.
  intros HN. split.
  - destruct (run_constant_temperature_result fsolve self out HN)
      as (s' & out' & Hrun & Hf & HL & _).
    by exists s', out'.
  - destruct (run_result fsolve self out HN)
      as (s' & out' & Hrun & Hf & HL & _).
    by exists s', out'.
Qed.

(** X4. [run_constant_temperature] never writes the center and boundary
    temperature arrays in its loop: in its result they hold the initial
    conditions at index 0 and the zeros of the reset elsewhere. *)
Theorem constant_temperature_keeps_center_arrays (self : Evolution)
    (out : Stdout) :
  (0 < length (time self))%nat ->
  exists (s' : Evolution) (out' : Stdout),
    run_constant_temperature fsolve self out = (Ok s', out')
    /\ let T_center := T_Fe self 0 0 - delta_T self in
       Tis_center s' = <[O:=T_center]> (zeros_like (time self))
       /\ Tcmb s'
          = <[O:=T_is self (rc self) T_center]> (zeros_like (time self)).
Proof.
  intros HN.
  destruct (run_constant_temperature_inv fsolve self out HN)
    as (s' & out' & Hrun & _ & _ & HTc & Hcmb & _).
  exists s', out'. split; [done|]. cbv zeta. by rewrite HTc, Hcmb.
Qed.

(** X5. On a grid of one sample the loop of either run method has nothing
    to iterate over: the solver is not called, nothing is printed, and the
    result holds the initial conditions at index 0. *)
Theorem single_sample_grid (self : Evolution) (out : Stdout) :
  length (time self) = 1%nat ->
  run_constant_temperature fsolve self out = (Ok (start_state self), out)
  /\ run fsolve self out = (Ok (start_state self), out)
  /\ dric (start_state self) = [G self * delta_T self ^ 2]
  /\ ric (start_state self) = [0]
  /\ Tic (start_state self) = [T_Fe self 0 0 - delta_T self]
  /\ supercooling (start_state self) = [delta_T self].
Proof.
  intros HN.
  assert (Hd : enumerate (drop 1 (time self)) = []).
  { destruct (time self) as [|t [|t' l]]; try done. }
  split_and!.
  - rewrite run_constant_temperature_start by lia. by rewrite Hd.
  - rewrite run_start by lia. by rewrite Hd.
  - unfold start_state, zeros_like. cbn. by rewrite HN.
  - unfold start_state, zeros_like. cbn. by rewrite HN.
  - unfold start_state, zeros_like. cbn. by rewrite HN.
  - unfold start_state, zeros_like. cbn. by rewrite HN.
Qed.

(** ** What a run prints *)

Lemma concat_seq_S {A : Type} (f : nat -> list A) (k : nat) :
  concat (f <$> seq 0 (S k)) = concat (f <$> seq 0 k) ++ f k.
Proof.
  rewrite seq_S, fmap_app, concat_app. simpl. by rewrite app_nil_r.
Qed.

Lemma concat_seq_ext {A : Type} (f g : nat -> list A) (k : nat) :
  (forall j : nat, (j < k)%nat -> f j = g j) ->
  concat (f <$> seq 0 k) = concat (g <$> seq 0 k).
Proof.
  induction k as [|k IH]; intros Hfg; [done|].
  rewrite !concat_seq_S.
  rewrite IH by (intros; apply Hfg; lia). by rewrite Hfg by lia.
Qed.

Lemma concat_seq_nil {A : Type} (f : nat -> list A) (k : nat) :
  (forall j : nat, (j < k)%nat -> f j = []) -> concat (f <$> seq 0 k) = [].
Proof.
  induction k as [|k IH]; intros Hf; [done|].
  rewrite concat_seq_S.
  rewrite IH by (intros; apply Hf; lia). by rewrite Hf by lia.
Qed.

Lemma concat_seq_length {A : Type} (f : nat -> list A) (k : nat) :
  (forall j : nat, (j < k)%nat -> length (f j) = 1%nat) ->
  length (concat (f <$> seq 0 k)) = k.
Proof.
  induction k as [|k IH]; intros Hf; [done|].
  rewrite concat_seq_S, length_app.
  rewrite IH by (intros; apply Hf; lia). rewrite Hf by lia. lia.
Qed.

Lemma getitem_insert_pred (a : list R) (k j : nat) (v : R) :
  (j < length a)%nat -> k <> prev (length a) j ->
  getitem (<[k:=v]> a) (Z.of_nat j - 1) = getitem a (Z.of_nat j - 1).
Proof.
  intros Hj Hk. unfold getitem. rewrite length_insert.
  rewrite norm_index_pred by done.
  by rewrite list_lookup_insert_ne.
Qed.

Lemma getitem_pred_is_Ok (a : list R) (j : nat) :
  (j < length a)%nat -> exists v : R, getitem a (Z.of_nat j - 1) = Ok v.
Proof.
  intros Hj.
  destruct (lookup_lt_is_Some_2 a (prev (length a) j)) as [v Hv];
    [by apply prev_lt|].
  exists v. by apply getitem_pred.
Qed.

Lemma icoregrowth_printed_frame (s s' : Evolution) :
  frame s = frame s' ->
  icoregrowth_printed fsolve s = icoregrowth_printed fsolve s'.
Proof.
  intros H.
  change (icoregrowth_printed fsolve (frame s)
          = icoregrowth_printed fsolve (frame s')).
  by rewrite H.
Qed.

Lemma ct_line_frame (s s' : Evolution) :
  frame s = frame s' -> ct_line fsolve s = ct_line fsolve s'.
Proof.
  intros H. change (ct_line fsolve (frame s) = ct_line fsolve (frame s')).
  by rewrite H.
Qed.

Lemma run_line_frame (s s' : Evolution) :
  frame s = frame s' -> run_line fsolve s = run_line fsolve s'.
Proof.
  intros H. change (run_line fsolve (frame s) = run_line fsolve (frame s')).
  by rewrite H.
Qed.

(** The loop of [run_constant_temperature] appends, iteration after
    iteration, the lines of its solves. *)
Lemma ct_loop_lines (T_center : R) (s0 : Evolution) (out : Stdout) :
  arrays_length s0 (length (time s0)) ->
  exists s' : Evolution,
    for_each (enumerate (drop 1 (time s0)))
      (step_constant_temperature fsolve T_center) s0 out
    = (Ok s',
       out ++ concat (ct_line fsolve s0 T_center (ric s')
                      <$> seq 0 (length (time s0) - 1)))
    /\ ct_inv fsolve T_center s0 (length (time s0) - 1) s'.
Proof.
  intros HL.
  destruct (for_each_invariant (step_constant_temperature fsolve T_center)
              (fun k s out1 =>
                 ct_inv fsolve T_center s0 k s
                 /\ out1 = out ++ concat (ct_line fsolve s0 T_center (ric s)
                                          <$> seq 0 k))
              (enumerate (drop 1 (time s0))) s0 out)
    as (s' & out' & Hrun & Hinv & Hout).
  - split; [by apply ct_inv_start|]. simpl. by rewrite app_nil_r.
  - intros k x s1 out1 Hx [Hinv Hout].
    apply lookup_enumerate_inv in Hx as [Hi Hk].
    rewrite length_drop in Hk.
    destruct (ct_inv_next fsolve T_center s0 s1 k) as (rp & Hrp & Hnext);
      [lia | done |].
    destruct Hinv as (Hf & (L1 & L2 & L3 & L4 & _) & _).
    exists (ct_next fsolve T_center s1 k rp),
      (out1 ++ icoregrowth_printed fsolve s1 T_center rp 0).
    split_and!; [| done |].
    + destruct x as [i t]. simpl in Hi. subst i.
      apply step_constant_temperature_eq; [lia.. | done].
    + rewrite Hout, concat_seq_S, <- !app_assoc. do 2 f_equal.
      * apply concat_seq_ext. intros j Hj. unfold ct_line, ct_next. cbn.
        rewrite getitem_insert_pred; [done | lia |].
        rewrite L2. apply prev_below; lia.
      * unfold ct_line, ct_next. cbn.
        rewrite getitem_insert_pred;
          [| lia | rewrite L2; apply prev_ne; lia].
        rewrite (getitem_pred (ric s1) k rp) by (lia || done).
        by rewrite (icoregrowth_printed_frame _ _ Hf).
  - exists s'. rewrite length_enumerate, length_drop in Hinv, Hout.
    split; [|done]. by rewrite Hrun, Hout.
Qed.

(** The same for the loop of [run]. *)
Lemma run_loop_lines (s0 : Evolution) (out : Stdout) :
  arrays_length s0 (length (time s0)) ->
  exists s' : Evolution,
    for_each (enumerate (drop 1 (time s0))) (step_run fsolve) s0 out
    = (Ok s',
       out ++ concat (run_line fsolve s0 (Tis_center s') (ric s')
                      <$> seq 0 (length (time s0) - 1)))
    /\ run_inv fsolve s0 (length (time s0) - 1) s'.
Proof.
  intros HL.
  destruct (for_each_invariant (step_run fsolve)
              (fun k s out1 =>
                 run_inv fsolve s0 k s
                 /\ out1 = out ++ concat (run_line fsolve s0 (Tis_center s)
                                            (ric s) <$> seq 0 k))
              (enumerate (drop 1 (time s0))) s0 out)
    as (s' & out' & Hrun & Hinv & Hout).
  - split; [by apply run_inv_start|]. simpl. by rewrite app_nil_r.
  - intros k x s1 out1 Hx [Hinv Hout].
    apply lookup_enumerate_inv in Hx as [Hi Hk].
    rewrite length_drop in Hk.
    destruct (run_inv_next fsolve s0 s1 k)
      as (Tcp & rp & HTcp & Hrp & Hnext); [lia | done |].
    destruct Hinv as (Hf & HL1 & _).
    pose proof HL1 as (L1 & L2 & L3 & L4 & L5 & L6).
    exists (run_next fsolve s1 k Tcp rp),
      (out1 ++ icoregrowth_printed fsolve s1 Tcp rp 0).
    split_and!; [| done |].
    + destruct x as [i t]. simpl in Hi. subst i.
      apply step_run_eq; [by rewrite L2 | lia | done | done].
    + rewrite Hout, concat_seq_S, <- !app_assoc. do 2 f_equal.
      * apply concat_seq_ext. intros j Hj. unfold run_line, run_next. cbn.
        rewrite !getitem_insert_pred; [done | lia | | lia |].
        -- rewrite L2. apply prev_below; lia.
        -- rewrite L5. apply prev_below; lia.
      * unfold run_line, run_next. cbn.
        rewrite !getitem_insert_pred;
          [| lia | rewrite L2; apply prev_ne; lia
           | lia | rewrite L5; apply prev_ne; lia].
        rewrite (getitem_pred (ric s1) k rp) by (lia || done).
        rewrite (getitem_pred (Tis_center s1) k Tcp) by (lia || done).
        by rewrite (icoregrowth_printed_frame _ _ Hf).
  - exists s'. rewrite length_enumerate, length_drop in Hinv, Hout.
    split; [|done]. by rewrite Hrun, Hout.
Qed.

Lemma run_constant_temperature_lines (self : Evolution) (out : Stdout) :
  (0 < length (time self))%nat ->
  exists s' : Evolution,
    run_constant_temperature fsolve self out
    = (Ok s',
       out ++ concat (ct_line fsolve self (T_Fe self 0 0 - delta_T self)
                        (ric s')
                      <$> seq 0 (length (time self) - 1)))
    /\ arrays_length s' (length (time self)).
Proof.
  intros HN. rewrite run_constant_temperature_start by done.
  destruct (ct_loop_lines (T_Fe self 0 0 - delta_T self) (start_state self)
              out (arrays_length_start_state self))
    as (s' & Hrun & _ & HL & _).
  exists s'. split; [|exact HL].
  rewrite (ct_line_frame self (start_state self) eq_refl). exact Hrun.
Qed.

Lemma run_lines (self : Evolution) (out : Stdout) :
  (0 < length (time self))%nat ->
  exists s' : Evolution,
    run fsolve self out
    = (Ok s',
       out ++ concat (run_line fsolve self (Tis_center s') (ric s')
                      <$> seq 0 (length (time self) - 1)))
    /\ arrays_length s' (length (time self)).
Proof.
  intros HN. rewrite run_start by done.
  destruct (run_loop_lines (start_state self) out
              (arrays_length_start_state self))
    as (s' & Hrun & _ & HL & _).
  exists s'. split; [|exact HL].
  rewrite (run_line_frame self (start_state self) eq_refl). exact Hrun.
Qed.

(** X6. [run_constant_temperature] prints exactly the lines of its solves,
    in the order of the iterations [0 .. N - 2]: iteration [j] contributes
    the line of the solve at the radius stored at [j - 1] when that solve
    reports a status other than 1, and nothing otherwise. *)
Theorem constant_temperature_output (self : Evolution) (out : Stdout) :
  (0 < length (time self))%nat ->
  exists s' : Evolution,
    run_constant_temperature fsolve self out
    = (Ok s',
       out ++ concat (ct_line fsolve self (T_Fe self 0 0 - delta_T self)
                        (ric s')
                      <$> seq 0 (length (time self) - 1))).
Proof.
  intros HN.
  destruct (run_constant_temperature_lines self out HN) as (s' & Hrun & _).
  by exists s'.
Qed.

(** X7. [run] prints exactly the lines of its solves, in the order of the
    iterations [0 .. N - 2]: iteration [j] contributes the line of the solve
    at the center temperature and radius stored at [j - 1] when that solve
    reports a status other than 1, and nothing otherwise. *)
Theorem evolving_output (self : Evolution) (out : Stdout) :
  (0 < length (time self))%nat ->
  exists s' : Evolution,
    run fsolve self out
    = (Ok s',
       out ++ concat (run_line fsolve self (Tis_center s') (ric s')
                      <$> seq 0 (length (time self) - 1))).
Proof.
  intros HN. destruct (run_lines self out HN) as (s' & Hrun & _).
  by exists s'.
Qed.

Lemma concat_seq_length_le {A : Type} (f : nat -> list A) (k : nat) :
  (forall j : nat, (j < k)%nat -> (length (f j) <= 1)%nat) ->
  (length (concat (f <$> seq 0 k)) <= k)%nat.
Proof.
  induction k as [|k IH]; intros Hf; [done|].
  rewrite concat_seq_S, length_app.
  specialize (IH ltac:(intros; apply Hf; lia)).
  specialize (Hf k ltac:(lia)). lia.
Qed.

Lemma concat_seq_nil_inv {A : Type} (f : nat -> list A) (k : nat) :
  concat (f <$> seq 0 k) = [] ->
  forall j : nat, (j < k)%nat -> f j = [].
Proof.
  induction k as [|k IH]; intros Hc j Hj; [lia|].
  rewrite concat_seq_S in Hc. apply app_eq_nil in Hc as [Hc Hk].
  destruct (decide (j = k)) as [->|Hne]; [done|].
  apply IH; [done | lia].
Qed.

Lemma concat_seq_length_inv {A : Type} (f : nat -> list A) (k : nat) :
  (forall j : nat, (j < k)%nat -> (length (f j) <= 1)%nat) ->
  length (concat (f <$> seq 0 k)) = k ->
  forall j : nat, (j < k)%nat -> length (f j) = 1%nat.
Proof.
  induction k as [|k IH]; intros Hf Hc j Hj; [lia|].
  rewrite concat_seq_S, length_app in Hc.
  pose proof (concat_seq_length_le f k ltac:(intros; apply Hf; lia)) as Hle.
  pose proof (Hf k ltac:(lia)) as Hk.
  destruct (decide (j = k)) as [->|Hne]; [lia|].
  apply IH; [intros; apply Hf; lia | lia | lia].
Qed.

(** What a loop of [k] iterations prints, iteration [j] printing the lines
    [f j], at most one: nothing exactly when every iteration is silent ([P]),
    [k] lines exactly when none is ([Q]). *)
Lemma lines_summary {A : Type} (f : nat -> list A) (k : nat) (out : list A)
    (P Q : nat -> Prop) :
  (forall j : nat, (j < k)%nat -> (length (f j) <= 1)%nat) ->
  (forall j : nat, (j < k)%nat -> f j = [] <-> P j) ->
  (forall j : nat, (j < k)%nat -> length (f j) = 1%nat <-> Q j) ->
  (length (out ++ concat (f <$> seq 0 k)) <= length out + k)%nat
  /\ ((forall j : nat, (j < k)%nat -> P j)
      <-> out ++ concat (f <$> seq 0 k) = out)
  /\ ((forall j : nat, (j < k)%nat -> Q j)
      <-> length (out ++ concat (f <$> seq 0 k)) = (length out + k)%nat).
Proof.
  intros Hle HP HQ. split_and!.
  - rewrite length_app. pose proof (concat_seq_length_le f k Hle). lia.
  - split.
    + intros Hall. rewrite concat_seq_nil; [by rewrite app_nil_r|].
      intros j Hj. by apply HP, Hall.
    + intros Hout j Hj. apply HP; [done|].
      apply (concat_seq_nil_inv f k); [|done].
      apply (app_inv_head out). by rewrite app_nil_r.
  - split.
    + intros Hall. rewrite length_app, concat_seq_length; [done|].
      intros j Hj. by apply HQ, Hall.
    + intros Hlen j Hj. apply HQ; [done|].
      apply (concat_seq_length_inv f k); [done | | done].
      rewrite length_app in Hlen. lia.
Qed.

Lemma icoregrowth_printed_length (self : Evolution) (T r : R) :
  (length (icoregrowth_printed fsolve self T r 0) <= 1)%nat.
Proof. unfold icoregrowth_printed. case_match; simpl; lia. Qed.

Lemma icoregrowth_printed_nil (self : Evolution) (T r : R) :
  icoregrowth_printed fsolve self T r 0 = []
  <-> fs_ier (icoregrowth_solve fsolve self T r 0) = 1%Z.
Proof.
  unfold icoregrowth_printed.
  destruct (Z.eqb_spec (fs_ier (icoregrowth_solve fsolve self T r 0)) 1);
    split; done.
Qed.

Lemma icoregrowth_printed_one (self : Evolution) (T r : R) :
  length (icoregrowth_printed fsolve self T r 0) = 1%nat
  <-> fs_ier (icoregrowth_solve fsolve self T r 0) <> 1%Z.
Proof.
  unfold icoregrowth_printed.
  destruct (Z.eqb_spec (fs_ier (icoregrowth_solve fsolve self T r 0)) 1);
    split; done.
Qed.

(** X8. The solves a run performs are those of its iterations
    [j = 0 .. N - 2], at the radius (and, for [run], the center temperature)
    stored at [j - 1]. Either run method prints at most one line per
    iteration; it prints nothing exactly when every solve it performs
    reports status 1, and [N - 1] lines exactly when none of the solves it
    performs does. *)
Theorem runs_print_one_line_per_failure (self : Evolution) (out : Stdout) :
  (0 < length (time self))%nat ->
  (exists (s' : Evolution) (out' : Stdout),
      run_constant_temperature fsolve self out = (Ok s', out')
      /\ (length out' <= length out + (length (time self) - 1))%nat
      /\ ((forall j : nat,
              (j < length (time self) - 1)%nat ->
              forall rp : R,
              getitem (ric s') (Z.of_nat j - 1) = Ok rp ->
              fs_ier (icoregrowth_solve fsolve self
                        (T_Fe self 0 0 - delta_T self) rp 0) = 1%Z)
          <-> out' = out)
      /\ ((forall j : nat,
              (j < length (time self) - 1)%nat ->
              forall rp : R,
              getitem (ric s') (Z.of_nat j - 1) = Ok rp ->
              fs_ier (icoregrowth_solve fsolve self
                        (T_Fe self 0 0 - delta_T self) rp 0) <> 1%Z)
          <-> length out' = (length out + (length (time self) - 1))%nat))
  /\ (exists (s' : Evolution) (out' : Stdout),
         run fsolve self out = (Ok s', out')
         /\ (length out' <= length out + (length (time self) - 1))%nat
         /\ ((forall j : nat,
                 (j < length (time self) - 1)%nat ->
                 forall Tcp rp : R,
                 getitem (Tis_center s') (Z.of_nat j - 1) = Ok Tcp ->
                 getitem (ric s') (Z.of_nat j - 1) = Ok rp ->
                 fs_ier (icoregrowth_solve fsolve self Tcp rp 0) = 1%Z)
             <-> out' = out)
         /\ ((forall j : nat,
                 (j < length (time self) - 1)%nat ->
                 forall Tcp rp : R,
                 getitem (Tis_center s') (Z.of_nat j - 1) = Ok Tcp ->
                 getitem (ric s') (Z.of_nat j - 1) = Ok rp ->
                 fs_ier (icoregrowth_solve fsolve self Tcp rp 0) <> 1%Z)
             <-> length out' = (length out + (length (time self) - 1))%nat)).
Proof.
  intros HN. split.
  - destruct (run_constant_temperature_lines self out HN)
      as (s' & Hrun & _ & L2 & _).
    eexists s', _. split; [exact Hrun|].
    apply (lines_summary
             (ct_line fsolve self (T_Fe self 0 0 - delta_T self) (ric s'))
             (length (time self) - 1) out
             (fun j => forall rp : R,
                getitem (ric s') (Z.of_nat j - 1) = Ok rp ->
                fs_ier (icoregrowth_solve fsolve self
                          (T_Fe self 0 0 - delta_T self) rp 0) = 1%Z)
             (fun j => forall rp : R,
                getitem (ric s') (Z.of_nat j - 1) = Ok rp ->
                fs_ier (icoregrowth_solve fsolve self
                          (T_Fe self 0 0 - delta_T self) rp 0) <> 1%Z)).
    + intros j Hj. unfold ct_line.
      destruct (getitem_pred_is_Ok (ric s') j) as [v ->]; [lia|].
      apply icoregrowth_printed_length.
    + intros j Hj. unfold ct_line.
      destruct (getitem_pred_is_Ok (ric s') j) as [v Hv]; [lia|].
      rewrite Hv, icoregrowth_printed_nil. split.
      * intros H rp Hrp. by assert (rp = v) as -> by congruence.
      * intros H. by apply H.
    + intros j Hj. unfold ct_line.
      destruct (getitem_pred_is_Ok (ric s') j) as [v Hv]; [lia|].
      rewrite Hv, icoregrowth_printed_one. split.
      * intros H rp Hrp. by assert (rp = v) as -> by congruence.
      * intros H. by apply H.
  - destruct (run_lines self out HN)
      as (s' & Hrun & _ & L2 & _ & _ & L5 & _).
    eexists s', _. split; [exact Hrun|].
    apply (lines_summary
             (run_line fsolve self (Tis_center s') (ric s'))
             (length (time self) - 1) out
             (fun j => forall Tcp rp : R,
                getitem (Tis_center s') (Z.of_nat j - 1) = Ok Tcp ->
                getitem (ric s') (Z.of_nat j - 1) = Ok rp ->
                fs_ier (icoregrowth_solve fsolve self Tcp rp 0) = 1%Z)
             (fun j => forall Tcp rp : R,
                getitem (Tis_center s') (Z.of_nat j - 1) = Ok Tcp ->
                getitem (ric s') (Z.of_nat j - 1) = Ok rp ->
                fs_ier (icoregrowth_solve fsolve self Tcp rp 0) <> 1%Z)).
    + intros j Hj. unfold run_line.
      destruct (getitem_pred_is_Ok (ric s') j) as [v ->]; [lia|].
      destruct (getitem_pred_is_Ok (Tis_center s') j) as [w ->]; [lia|].
      apply icoregrowth_printed_length.
    + intros j Hj. unfold run_line.
      destruct (getitem_pred_is_Ok (ric s') j) as [v Hv]; [lia|].
      destruct (getitem_pred_is_Ok (Tis_center s') j) as [w Hw]; [lia|].
      rewrite Hv, Hw, icoregrowth_printed_nil. split.
      * intros H Tcp rp HTcp Hrp.
        assert (rp = v) as -> by congruence.
        by assert (Tcp = w) as -> by congruence.
      * intros H. by apply H.
    + intros j Hj. unfold run_line.
      destruct (getitem_pred_is_Ok (ric s') j) as [v Hv]; [lia|].
      destruct (getitem_pred_is_Ok (Tis_center s') j) as [w Hw]; [lia|].
      rewrite Hv, Hw, icoregrowth_printed_one. split.
      * intros H Tcp rp HTcp Hrp.
        assert (rp = v) as -> by congruence.
        by assert (Tcp = w) as -> by congruence.
      * intros H. by apply H.
Qed.

(** ** The profiles away from the center *)

Lemma exp_le_mono (x y : R) : x <= y -> exp x <= exp y.
Proof.
  intros [Hlt | ->]; [|lra]. by apply Rlt_le, exp_increasing.
Qed.

Lemma pow2_pos (x : R) : x <> 0 -> 0 < x ^ 2.
Proof. intros Hx. pose proof (pow2_ge_0 x). nra. Qed.

Lemma div_pow2_le (x y L : R) : L <> 0 -> x <= y -> x / L ^ 2 <= y / L ^ 2.
Proof.
  intros HL Hxy. unfold Rdiv. apply Rmult_le_compat_r; [|done].
  by apply Rlt_le, Rinv_0_lt_compat, pow2_pos.
Qed.

(** The coefficient [1 - 1/3/gamma] of the melting curve. *)
Lemma melting_coefficient (g : R) :
  0 < g -> 1 - 1 / 3 / g = (3 * g - 1) / (3 * g).
Proof. intros Hg. field. lra. Qed.

Lemma melting_coefficient_pos (g : R) : 1 / 3 < g -> 0 < 1 - 1 / 3 / g.
Proof.
  intros Hg. rewrite melting_coefficient by lra.
  apply Rdiv_lt_0_compat; lra.
Qed.

Lemma melting_coefficient_half (g : R) : 2 / 3 <= g -> 1 <= 2 * (1 - 1 / 3 / g).
Proof.
  intros Hg. rewrite melting_coefficient by lra.
  assert (H : 0 < / (3 * g)) by (apply Rinv_0_lt_compat; lra).
  assert (H1 : 3 * g * / (3 * g) = 1) by (apply Rinv_r; lra).
  unfold Rdiv. nra.
Qed.

Lemma T_is_le (self : Evolution) (r1 r2 T0 : R) :
  longueur self <> 0 -> 0 <= T0 -> 0 <= r1 <= r2 ->
  T_is self r2 T0 <= T_is self r1 T0.
Proof.
  intros HL HT Hr. unfold T_is. apply Rmult_le_compat_l; [done|].
  apply exp_le_mono, div_pow2_le; [done|]. nra.
Qed.

Lemma T_Fe_le (self : Evolution) (r1 r2 xi : R) :
  longueur self <> 0 -> 1 / 3 < gamma self -> 0 <= TFe0 self ->
  0 <= r1 <= r2 ->
  T_Fe self r2 xi <= T_Fe self r1 xi.
Proof.
  intros HL Hg HT Hr. unfold T_Fe.
  apply Rplus_le_compat_r, Rmult_le_compat_l; [done|].
  apply exp_le_mono, div_pow2_le; [done|].
  pose proof (melting_coefficient_pos _ Hg) as Hc.
  set (c := 1 - 1 / 3 / gamma self) in *.
  assert (H2 : r1 ^ 2 <= r2 ^ 2) by nra.
  assert (c * r1 ^ 2 <= c * r2 ^ 2) by (apply Rmult_le_compat_l; lra).
  lra.
Qed.

Lemma T_is_abs_le (self : Evolution) (r T0 : R) :
  longueur self <> 0 -> Rabs (T_is self r T0) <= Rabs T0.
Proof.
  intros HL. unfold T_is. rewrite Rabs_mult.
  rewrite (Rabs_pos_eq (exp _)) by apply Rlt_le, exp_pos.
  rewrite <- (Rmult_1_r (Rabs T0)) at 2.
  apply Rmult_le_compat_l; [apply Rabs_pos|].
  apply Rle_trans with (exp 0); [|rewrite exp_0; lra].
  apply exp_le_mono, Rle_trans with (0 / longueur self ^ 2).
  - apply div_pow2_le; [done|]. pose proof (pow2_ge_0 r). lra.
  - unfold Rdiv. rewrite Rmult_0_l. lra.
Qed.

(** X9. Both profiles fall, or stay level, as the radius grows: for a
    non-zero length scale, a Gruneisen parameter above 1/3 and non-negative
    center temperatures, a larger radius never has a higher isentrope or
    melting temperature. *)
Theorem profiles_decrease_outward (self : Evolution) (r1 r2 T0 xi : R) :
  longueur self <> 0 -> 1 / 3 < gamma self -> 0 <= TFe0 self -> 0 <= T0 ->
  0 <= r1 <= r2 ->
  T_is self r2 T0 <= T_is self r1 T0
  /\ T_Fe self r2 xi <= T_Fe self r1 xi.
Proof.
  intros HL Hg HT HT0 Hr. split.
  - by apply T_is_le.
  - by apply T_Fe_le.
Qed.

(** X10. For a Gruneisen parameter of 2/3 or more the melting curve lies on
    or below the isentrope through the central melting temperature, which
    itself never exceeds that temperature; the melting temperature stays
    non-negative. *)
Theorem melting_below_isentrope (self : Evolution) (r : R) :
  longueur self <> 0 -> 2 / 3 <= gamma self -> 0 <= TFe0 self ->
  0 <= T_Fe self r 0
  /\ T_Fe self r 0 <= T_is self r (TFe0 self)
  /\ T_is self r (TFe0 self) <= TFe0 self.
Proof.
  intros HL Hg HT. split_and!.
  - unfold T_Fe. pose proof (exp_pos
      (-2 * (1 - 1 / 3 / gamma self) * r ^ 2 / longueur self ^ 2)). nra.
  - unfold T_Fe, T_is. rewrite Rminus_0_r.
    apply Rmult_le_compat_l; [done|].
    apply exp_le_mono, div_pow2_le; [done|].
    pose proof (melting_coefficient_half _ Hg). pose proof (pow2_ge_0 r).
    nra.
  - pose proof (T_is_abs_le self r (TFe0 self) HL) as H.
    rewrite (Rabs_pos_eq (TFe0 self)) in H by done.
    pose proof (Rle_abs (T_is self r (TFe0 self))). lra.
Qed.

(** ** The roots of the residuals *)

Lemma func_root_equations (self : Evolution) (dr Ti T r cc : R) :
  func self (dr, Ti) T r cc = (0, 0) ->
  dr = G self * (T_Fe self r cc - Ti) ^ 2
  /\ rho0 self * (cp self * (T_Fe self r cc - T_is self r T) + LFe self) * dr
     = rhol self * cp self * u self * (Ti - T_is self r T).
Proof.
  unfold func. cbn [fst snd]. intros H.
  apply pair_equal_spec in H as [H0 H1]. split; lra.
Qed.

(** X11. No root of the residuals has a negative growth rate or an
    interface temperature below the isentrope: with [G >= 0] and positive
    heat-balance coefficients, a pair that zeroes both residuals has
    [dr >= 0] and [Ti >= T_is(ric, T)]. *)
Theorem roots_grow_and_stay_above_isentrope
    (self : Evolution) (dr Ti T r cc : R) :
  0 <= G self ->
  0 < rho0 self * (cp self * (T_Fe self r cc - T_is self r T) + LFe self) ->
  0 < rhol self * cp self * u self ->
  func self (dr, Ti) T r cc = (0, 0) ->
  0 <= dr /\ T_is self r T <= Ti.
Proof.
  intros HG HP Hb Hroot.
  apply func_root_equations in Hroot as [H0 H1].
  assert (Hdr : 0 <= dr).
  { rewrite H0. apply Rmult_le_pos; [done | apply pow2_ge_0]. }
  split; [done|]. nra.
Qed.

(** Two roots with interface temperature not above the melting temperature
    are equal. *)
Lemma physical_root_unique (self : Evolution) (T r cc : R) (y1 y2 : R * R) :
  let D := T_Fe self r cc - T_is self r T in
  0 < G self * (rho0 self * (cp self * D + LFe self)) ->
  0 < rhol self * cp self * u self ->
  func self y1 T r cc = (0, 0) -> func self y2 T r cc = (0, 0) ->
  snd y1 <= T_Fe self r cc -> snd y2 <= T_Fe self r cc ->
  y1 = y2.
Proof.
  intros D Ha Hb H1 H2 Hp1 Hp2.
  destruct y1 as [d1 t1], y2 as [d2 t2]. cbn [snd] in Hp1, Hp2.
  apply func_root_equations in H1 as [K1 E1].
  apply func_root_equations in H2 as [K2 E2]. fold D in E1, E2.
  set (Tm := T_Fe self r cc) in *. set (Ta := T_is self r T) in *.
  set (a := G self * (rho0 self * (cp self * D + LFe self))) in *.
  set (b := rhol self * cp self * u self) in *.
  set (x1 := Tm - t1). set (x2 := Tm - t2).
  assert (Q1 : a * x1 ^ 2 + b * x1 - b * D = 0).
  { unfold a, x1, D. rewrite K1 in E1. unfold D in E1. nra. }
  assert (Q2 : a * x2 ^ 2 + b * x2 - b * D = 0).
  { unfold a, x2, D. rewrite K2 in E2. unfold D in E2. nra. }
  assert (Hprod : (x1 - x2) * (a * (x1 + x2) + b) = 0) by nra.
  apply Rmult_integral in Hprod as [Hx | Hx].
  - assert (t1 = t2) as -> by (unfold x1, x2 in Hx; lra).
    by rewrite K1, K2.
  - unfold x1, x2 in Hx. nra.
Qed.

(** [exact_root] has its interface temperature not above the melting
    temperature when the ambient is not above it either. *)
Lemma exact_root_physical (self : Evolution) (T r cc : R) :
  let D := T_Fe self r cc - T_is self r T in
  0 < G self * (rho0 self * (cp self * D + LFe self)) ->
  0 <= rhol self * cp self * u self -> 0 <= D ->
  snd (exact_root self T r cc) <= T_Fe self r cc.
Proof.
  intros D Ha Hb HD. unfold exact_root. cbn [snd]. fold D.
  set (a := G self * (rho0 self * (cp self * D + LFe self))) in *.
  set (b := rhol self * cp self * u self) in *.
  assert (Hs : b <= sqrt (b ^ 2 + 4 * a * b * D)).
  { rewrite <- (sqrt_pow2 b) at 1 by done. apply sqrt_le_1_alt.
    assert (0 <= 4 * a * b * D)
      by (apply Rmult_le_pos; [apply Rmult_le_pos|]; lra).
    lra. }
  assert (0 <= (sqrt (b ^ 2 + 4 * a * b * D) - b) / (2 * a)).
  { apply Rle_mult_inv_pos; lra. }
  lra.
Qed.

(** X12. With positive coefficients and an isentrope not above the melting
    temperature, the residuals have exactly one root whose interface
    temperature is not above the melting temperature; it is [exact_root], and
    its interface temperature lies between the isentrope and the melting
    temperature. *)
Theorem func_has_one_physical_root (self : Evolution) (T r cc : R) :
  let Ta := T_is self r T in
  let Tm := T_Fe self r cc in
  0 < G self * (rho0 self * (cp self * (Tm - Ta) + LFe self)) ->
  0 < rhol self * cp self * u self ->
  Ta <= Tm ->
  func self (exact_root self T r cc) T r cc = (0, 0)
  /\ Ta <= snd (exact_root self T r cc) <= Tm
  /\ forall dr Ti : R,
       func self (dr, Ti) T r cc = (0, 0) -> Ti <= Tm ->
       (dr, Ti) = exact_root self T r cc.
Proof.
  intros Ta Tm Ha Hb HD.
  assert (Hroot : func self (exact_root self T r cc) T r cc = (0, 0)).
  { apply exact_root_is_root; [fold Ta Tm; lra|].
    fold Ta Tm. pose proof (pow2_ge_0 (rhol self * cp self * u self)).
    assert (0 <= G self * (rho0 self * (cp self * (Tm - Ta) + LFe self))
                 * (rhol self * cp self * u self) * (Tm - Ta))
      by (apply Rmult_le_pos; [apply Rmult_le_pos|]; lra).
    lra. }
  assert (Hphys : snd (exact_root self T r cc) <= Tm).
  { apply exact_root_physical; fold Ta Tm; lra. }
  split_and!; [done | | done |].
  - pose proof Hroot as Hroot'.
    rewrite (surjective_pairing (exact_root self T r cc)) in Hroot'.
    apply func_root_equations in Hroot' as [K E]. fold Ta Tm in K, E.
    rewrite K in E.
    pose proof (pow2_ge_0 (Tm - snd (exact_root self T r cc))).
    nra.
  - intros dr Ti Hr HTi.
    apply (physical_root_unique self T r cc (dr, Ti)); [done..|].
    exact Hphys.
Qed.

(** ** The feedback law as a function of the growth rate *)

(** X13. With positive constants the center-temperature derivative is zero
    exactly when the heat release equals [Qcmb], does not depend on the growth
    rate at zero radius, where no heat is released, and at a non-zero radius
    is strictly increasing in the growth rate. *)
Theorem dTcmb_balance_and_growth (self : Evolution) (dr1 dr2 r : R) :
  0 < eta_c self -> 0 < Mc self -> 0 < cp self ->
  0 < (LFe self + Eg self) * rho0 self ->
  (dTcmb self dr1 r = 0 <-> QLQG self dr1 r = Qcmb self)
  /\ QLQG self dr1 0 = 0
  /\ dTcmb self dr1 0 = dTcmb self dr2 0
  /\ (r <> 0 -> dr1 < dr2 -> dTcmb self dr1 r < dTcmb self dr2 r).
Proof.
  intros He HM Hc Hq.
  assert (Hk : 0 < eta_c self / Mc self / cp self)
    by (repeat apply Rdiv_lt_0_compat; assumption).
  split_and!.
  - unfold dTcmb. split.
    + intros H0. apply Rmult_integral in H0 as [H0 | H0]; lra.
    + intros ->. ring.
  - unfold QLQG. ring.
  - unfold dTcmb, QLQG. ring.
  - intros Hr Hdr. unfold dTcmb.
    apply Rmult_lt_compat_l; [done|]. apply Rplus_lt_compat_r.
    unfold QLQG.
    assert (HA : 0 < 4 * PI * r ^ 2).
    { pose proof PI_RGT_0. pose proof (pow2_pos r Hr). nra. }
    apply Rmult_lt_compat_r; [done|]. by apply Rmult_lt_compat_l.
Qed.

(** ** Invariants of the arrays of a finished run *)

Lemma getitem_Ok_lookup (a : list R) (i : Z) (v : R) :
  getitem a i = Ok v -> exists p : nat, a !! p = Some v.
Proof.
  unfold getitem. destruct (norm_index (length a) i) as [p|]; [|done].
  destruct (a !! p) as [w|] eqn:Hp; [|done].
  intros [= ->]. by exists p.
Qed.

(** X14. After either run on a grid of two samples or more, no entry of
    the supercooling array is negative. *)
Theorem supercooling_nonnegative (self : Evolution) (out : Stdout) :
  (2 <= length (time self))%nat ->
  (exists (s' : Evolution) (out' : Stdout),
      run_constant_temperature fsolve self out = (Ok s', out')
      /\ forall (i : Z) (v : R),
           getitem (supercooling s') i = Ok v -> 0 <= v)
  /\ (exists (s' : Evolution) (out' : Stdout),
         run fsolve self out = (Ok s', out')
         /\ forall (i : Z) (v : R),
              getitem (supercooling s') i = Ok v -> 0 <= v).
Proof.
  intros HN. split.
  - destruct (run_constant_temperature_inv fsolve self out)
      as (s' & out' & Hrun & _ & HL & _ & _ & Hrest & Hdone); [lia|].
    exists s', out'. split; [done|]. intros i v Hv.
    apply getitem_Ok_lookup in Hv as [p Hp].
    destruct HL as (_ & _ & _ & L4 & _).
    apply lookup_lt_Some in Hp as Hlt. rewrite L4 in Hlt.
    cbn -[zeros_like] in Hlt.
    destruct (decide (p < length (time self) - 1)%nat) as [Hlo | Hhi].
    + destruct (Hdone p Hlo) as (rp & _ & Hs). cbv zeta in Hs.
      destruct Hs as (_ & _ & _ & Hsc).
      assert (v = Rabs (T_Fe s'
                          (rp + fst (icoregrowth_value fsolve s'
                                       (T_Fe self 0 0 - delta_T self) rp 0)
                                * dt s') 0
                        - snd (icoregrowth_value fsolve s'
                                 (T_Fe self 0 0 - delta_T self) rp 0)))
        as -> by congruence.
      apply Rabs_pos.
    + destruct (Hrest p) as (_ & _ & _ & A4 & _);
        [cbn -[zeros_like]; lia|].
      destruct (start_state_zero self p) as (_ & _ & Z4 & _); [lia|].
      assert (v = 0) as -> by congruence. lra.
  - destruct (run_inv_final fsolve self out)
      as (s' & out' & Hrun & _ & HL & Hrest & Hdone); [lia|].
    exists s', out'. split; [done|]. intros i v Hv.
    apply getitem_Ok_lookup in Hv as [p Hp].
    destruct HL as (_ & _ & _ & L4 & _).
    apply lookup_lt_Some in Hp as Hlt. rewrite L4 in Hlt.
    cbn -[zeros_like] in Hlt.
    destruct (decide (p < length (time self) - 1)%nat) as [Hlo | Hhi].
    + destruct (Hdone p Hlo) as (Tcp & rp & _ & _ & Hs). cbv zeta in Hs.
      destruct Hs as (_ & _ & _ & Hsc & _).
      assert (v = Rabs (T_Fe s'
                          (rp + fst (icoregrowth_value fsolve s' Tcp rp 0)
                                * dt s') 0
                        - snd (icoregrowth_value fsolve s' Tcp rp 0)))
        as -> by congruence.
      apply Rabs_pos.
    + destruct (Hrest p) as (_ & _ & _ & A4 & _);
        [cbn -[zeros_like]; lia|].
      destruct (start_state_zero self p) as (_ & _ & Z4 & _); [lia|].
      assert (v = 0) as -> by congruence. lra.
Qed.

(** X15. In evolving mode the boundary temperature of every computed sample
    is, in absolute value, at most the center temperature of that sample
    (for a non-zero length scale). *)
Theorem boundary_within_center_temperature (self : Evolution)
    (out : Stdout) :
  (0 < length (time self))%nat -> longueur self <> 0 ->
  exists (s' : Evolution) (out' : Stdout),
    run fsolve self out = (Ok s', out')
    /\ forall (i : Z) (Tc Tb : R),
         (0 <= i <= Z.of_nat (length (time self)) - 2)%Z ->
         getitem (Tis_center s') i = Ok Tc -> getitem (Tcmb s') i = Ok Tb ->
         Rabs Tb <= Rabs Tc.
Proof.
  intros HN HLg.
  destruct (run_result fsolve self out HN)
    as (s' & out' & Hrun & _ & _ & _ & Hlaw).
  exists s', out'. split; [done|]. intros i Tc Tb Hi HTc HTb.
  destruct (Hlaw i Hi) as (Tcp & rp & _ & _ & Hs). cbv zeta in Hs.
  destruct Hs as (_ & _ & _ & _ & HTc' & HTb').
  rewrite HTc' in HTc. rewrite HTb' in HTb.
  apply (f_equal (fun x => match x with Ok v => v | Raise _ => 0 end)) in HTc, HTb.
  subst Tc Tb. by apply T_is_abs_le.
Qed.

End Coverage.

(** ** The further properties at concrete inputs *)

(** Closes a goal about the constants of [init_state]. *)
Ltac init_constants :=
  cbn [init_state Qcmb delta_T longueur rc G rhol rho0 u cp LFe TFe0 gamma
         eta_c Mc Eg];
  lra.

(** In the default scenarios the coefficients of the residuals at zero radius
    are positive and [exact_root] is a root with interface temperature not
    above the melting temperature. *)
Lemma init_root_conditions (delta_T0 Qcmb0 : R) :
  0 <= delta_T0 ->
  let self := init_state delta_T0 Qcmb0 in
  let T := T_Fe self 0 0 - delta_T0 in
  0 < G self * (rho0 self
                * (cp self * (T_Fe self 0 0 - T_is self 0 T) + LFe self))
  /\ 0 < rhol self * cp self * u self
  /\ T_is self 0 T <= T_Fe self 0 0
  /\ func self (exact_root self T 0 0) T 0 0 = (0, 0)
  /\ snd (exact_root self T 0 0) <= T_Fe self 0 0.
Proof.
  intros HdT self T.
  assert (Ha : 0 < G self * (rho0 self
                 * (cp self * (T_Fe self 0 0 - T_is self 0 T) + LFe self))).
  { unfold T, self. rewrite T_is_center, !T_Fe_center.
    cbn [init_state TFe0 G rho0 cp LFe]. lra. }
  assert (Hb : 0 < rhol self * cp self * u self).
  { unfold self. cbn [init_state rhol cp u]. lra. }
  assert (HD : T_is self 0 T <= T_Fe self 0 0).
  { unfold T, self. rewrite T_is_center, !T_Fe_center. lra. }
  split_and!; [done | done | done | |].
  - apply exact_root_is_root; [lra|].
    pose proof (pow2_ge_0 (rhol self * cp self * u self)).
    assert (0 <= 4 * (G self * (rho0 self
                 * (cp self * (T_Fe self 0 0 - T_is self 0 T) + LFe self)))
                 * (rhol self * cp self * u self)
                 * (T_Fe self 0 0 - T_is self 0 T))
      by (apply Rmult_le_pos; [apply Rmult_le_pos|]; lra).
    lra.
  - apply exact_root_physical; lra.
Qed.

Lemma runs_ignore_stale_arrays_witness :
  let a := init_state 100 1e-12 in
  let b := set_dric (init_state 100 1e-12) [1; 2; 3] in
  frame a = frame b
  /\ run_constant_temperature fsolve_stalled a []
     = run_constant_temperature fsolve_stalled b []
  /\ run fsolve_stalled a [] = run fsolve_stalled b [].
Proof.
  intros a b.
  assert (H : frame a = frame b) by reflexivity.
  split; [exact H|].
  exact (runs_ignore_stale_arrays fsolve_stalled a b [] H).
Defined.

Lemma runs_append_and_repeat_witness :
  let self := init_state 100 1e-12 in
  (0 < length (time self))%nat
  /\ exists (s' : Evolution) (lines : Stdout),
       run fsolve_stalled self [] = (Ok s', lines)
       /\ run fsolve_stalled s' lines = (Ok s', lines ++ lines).
Proof.
  intros self.
  assert (HN : (0 < length (time self))%nat)
    by (unfold self; rewrite length_time_init; lia).
  split; [exact HN|].
  destruct (runs_append_and_repeat fsolve_stalled self HN)
    as [_ (s' & lines & H1 & H2)].
  exists s', lines. split; [exact (H1 []) | exact (H2 lines)].
Defined.

Lemma runs_keep_constants_and_shape_witness :
  let self := init_state 100 1e-12 in
  (0 < length (time self))%nat
  /\ exists (s' : Evolution) (out' : Stdout),
       run_constant_temperature fsolve_stalled self [] = (Ok s', out')
       /\ frame s' = frame self
       /\ arrays_length s' 1000.
Proof.
  intros self.
  assert (HN : (0 < length (time self))%nat)
    by (unfold self; rewrite length_time_init; lia).
  split; [exact HN|].
  destruct (runs_keep_constants_and_shape fsolve_stalled self [] HN)
    as [(s' & out' & Hrun & Hf & HL) _].
  unfold self in HL. rewrite length_time_init in HL.
  exists s', out'. split_and!; [exact Hrun | exact Hf | exact HL].
Defined.

Lemma constant_temperature_keeps_center_arrays_witness :
  let self := init_state 100 1e-12 in
  (0 < length (time self))%nat
  /\ exists (s' : Evolution) (out' : Stdout),
       run_constant_temperature fsolve_stalled self [] = (Ok s', out')
       /\ Tis_center s'
          = <[O:=T_Fe self 0 0 - 100]> (zeros_like (time self)).
Proof.
  intros self.
  assert (HN : (0 < length (time self))%nat)
    by (unfold self; rewrite length_time_init; lia).
  split; [exact HN|].
  destruct (constant_temperature_keeps_center_arrays fsolve_stalled self []
              HN) as (s' & out' & Hrun & HTc & _).
  exists s', out'. split; [exact Hrun | exact HTc].
Defined.

Lemma single_sample_grid_witness :
  length (time one_sample) = 1%nat
  /\ run_constant_temperature fsolve_stalled one_sample []
     = (Ok (start_state one_sample), [])
  /\ run fsolve_stalled one_sample [] = (Ok (start_state one_sample), []).
Proof.
  assert (HN : length (time one_sample) = 1%nat) by reflexivity.
  split; [exact HN|].
  destruct (single_sample_grid fsolve_stalled one_sample [] HN)
    as (H1 & H2 & _).
  split; [exact H1 | exact H2].
Defined.

Lemma constant_temperature_output_witness :
  let self := init_state 100 1e-12 in
  (0 < length (time self))%nat
  /\ exists s' : Evolution,
       run_constant_temperature fsolve_stalled self []
       = (Ok s',
          concat (ct_line fsolve_stalled self (T_Fe self 0 0 - 100) (ric s')
                  <$> seq 0 999)).
Proof.
  intros self.
  assert (HN : (0 < length (time self))%nat)
    by (unfold self; rewrite length_time_init; lia).
  split; [exact HN|].
  destruct (constant_temperature_output fsolve_stalled self [] HN)
    as (s' & Hrun).
  unfold self in Hrun at 5. rewrite length_time_init in Hrun.
  exists s'. exact Hrun.
Defined.

Lemma evolving_output_witness :
  let self := init_state 100 1e-12 in
  (0 < length (time self))%nat
  /\ exists s' : Evolution,
       run fsolve_stalled self []
       = (Ok s',
          concat (run_line fsolve_stalled self (Tis_center s') (ric s')
                  <$> seq 0 999)).
Proof.
  intros self.
  assert (HN : (0 < length (time self))%nat)
    by (unfold self; rewrite length_time_init; lia).
  split; [exact HN|].
  destruct (evolving_output fsolve_stalled self [] HN) as (s' & Hrun).
  unfold self in Hrun at 3. rewrite length_time_init in Hrun.
  exists s'. exact Hrun.
Defined.

Lemma runs_print_one_line_per_failure_witness :
  let self := init_state 100 1e-12 in
  (0 < length (time self))%nat
  /\ (exists (s' : Evolution) (out' : Stdout),
         run_constant_temperature fsolve_stalled self [] = (Ok s', out')
         /\ length out' = 999%nat)
  /\ exists s' : Evolution,
       run (fsolve_exact self) self [] = (Ok s', []).
Proof.
  intros self.
  assert (HN : (0 < length (time self))%nat)
    by (unfold self; rewrite length_time_init; lia).
  split; [exact HN|]. split.
  - destruct (runs_print_one_line_per_failure fsolve_stalled self [] HN)
      as [(s' & out' & Hrun & _ & _ & Hloud) _].
    destruct Hloud as [Hloud _].
    unfold self in Hloud. rewrite length_time_init in Hloud.
    exists s', out'. split; [exact Hrun|].
    apply Hloud. intros j _ rp _. discriminate.
  - destruct (runs_print_one_line_per_failure (fsolve_exact self) self []
                HN) as [_ (s' & out' & Hrun & _ & Hsilent & _)].
    destruct Hsilent as [Hsilent _].
    exists s'.
    rewrite (Hsilent ltac:(intros j _ Tcp rp _ _; reflexivity)) in Hrun.
    exact Hrun.
Defined.

Lemma profiles_decrease_outward_witness :
  let self := init_state 100 1e-12 in
  longueur self <> 0 /\ 1 / 3 < gamma self /\ 0 <= TFe0 self
  /\ 0 <= 6400 /\ 0 <= 0 <= 1221e3
  /\ T_is self 1221e3 6400 <= T_is self 0 6400
  /\ T_Fe self 1221e3 0 <= T_Fe self 0 0.
Proof.
  intros self.
  assert (H1 : longueur self <> 0) by (unfold self; init_constants).
  assert (H2 : 1 / 3 < gamma self) by (unfold self; init_constants).
  assert (H3 : 0 <= TFe0 self) by (unfold self; init_constants).
  assert (H4 : 0 <= 6400) by lra.
  assert (H5 : 0 <= 0 <= 1221e3) by lra.
  split_and!; [exact H1 | exact H2 | exact H3 | exact H4 | apply H5
    | apply H5 | |];
    apply (profiles_decrease_outward self 0 1221e3 6400 0 H1 H2 H3 H4 H5).
Defined.

Lemma melting_below_isentrope_witness :
  let self := init_state 100 1e-12 in
  longueur self <> 0 /\ 2 / 3 <= gamma self /\ 0 <= TFe0 self
  /\ T_Fe self 1221e3 0 <= T_is self 1221e3 (TFe0 self).
Proof.
  intros self.
  assert (H1 : longueur self <> 0) by (unfold self; init_constants).
  assert (H2 : 2 / 3 <= gamma self) by (unfold self; init_constants).
  assert (H3 : 0 <= TFe0 self) by (unfold self; init_constants).
  split_and!; [exact H1 | exact H2 | exact H3 |].
  apply (melting_below_isentrope self 1221e3 H1 H2 H3).
Defined.

Lemma roots_grow_and_stay_above_isentrope_witness :
  let self := init_state 100 1e-12 in
  let T := T_Fe self 0 0 - 100 in
  let y := exact_root self T 0 0 in
  0 <= G self
  /\ 0 < rho0 self * (cp self * (T_Fe self 0 0 - T_is self 0 T) + LFe self)
  /\ 0 < rhol self * cp self * u self
  /\ func self (fst y, snd y) T 0 0 = (0, 0)
  /\ 0 <= fst y
  /\ T_is self 0 T <= snd y.
Proof.
  intros self T y.
  destruct (init_root_conditions 100 1e-12 ltac:(lra))
    as (Ha & Hb & _ & Hroot & _).
  assert (HG : 0 <= G self) by (unfold self; init_constants).
  assert (HP : 0 < rho0 self
                   * (cp self * (T_Fe self 0 0 - T_is self 0 T) + LFe self)).
  { unfold T, self. rewrite T_is_center, !T_Fe_center.
    cbn [init_state TFe0 rho0 cp LFe]. lra. }
  assert (Hr : func self (fst y, snd y) T 0 0 = (0, 0)).
  { rewrite <- surjective_pairing. exact Hroot. }
  split_and!; [exact HG | exact HP | exact Hb | exact Hr | |];
    apply (roots_grow_and_stay_above_isentrope self (fst y) (snd y) T 0 0
             HG HP Hb Hr).
Defined.

Lemma func_has_one_physical_root_witness :
  let self := init_state 100 1e-12 in
  let T := T_Fe self 0 0 - 100 in
  0 < G self * (rho0 self
                * (cp self * (T_Fe self 0 0 - T_is self 0 T) + LFe self))
  /\ 0 < rhol self * cp self * u self
  /\ T_is self 0 T <= T_Fe self 0 0
  /\ func self (exact_root self T 0 0) T 0 0 = (0, 0)
  /\ T_is self 0 T <= snd (exact_root self T 0 0) <= T_Fe self 0 0.
Proof.
  intros self T.
  destruct (init_root_conditions 100 1e-12 ltac:(lra))
    as (Ha & Hb & HD & _ & _).
  split_and!; [exact Ha | exact Hb | exact HD | | |];
    apply (func_has_one_physical_root self T 0 0 Ha Hb HD).
Defined.

Lemma dTcmb_balance_and_growth_witness :
  let self := init_state 100 1e-12 in
  0 < eta_c self /\ 0 < Mc self /\ 0 < cp self
  /\ 0 < (LFe self + Eg self) * rho0 self
  /\ QLQG self 1 0 = 0
  /\ dTcmb self 1 0 = dTcmb self 2 0
  /\ dTcmb self 1 1221e3 < dTcmb self 2 1221e3.
Proof.
  intros self.
  assert (H1 : 0 < eta_c self) by (unfold self; init_constants).
  assert (H2 : 0 < Mc self) by (unfold self; init_constants).
  assert (H3 : 0 < cp self) by (unfold self; init_constants).
  assert (H4 : 0 < (LFe self + Eg self) * rho0 self) by (unfold self; init_constants).
  destruct (dTcmb_balance_and_growth self 1 2 1221e3 H1 H2 H3 H4)
    as (_ & Hq & Hz & Hgrow).
  split_and!; [exact H1 | exact H2 | exact H3 | exact H4 | exact Hq
    | exact Hz | apply Hgrow; lra].
Defined.

Lemma supercooling_nonnegative_witness :
  let self := init_state 100 1e-12 in
  (2 <= length (time self))%nat
  /\ exists (s' : Evolution) (out' : Stdout),
       run fsolve_stalled self [] = (Ok s', out')
       /\ forall v : R, getitem (supercooling s') (-2) = Ok v -> 0 <= v.
Proof.
  intros self.
  assert (HN : (2 <= length (time self))%nat)
    by (unfold self; rewrite length_time_init; lia).
  split; [exact HN|].
  destruct (supercooling_nonnegative fsolve_stalled self [] HN)
    as [_ (s' & out' & Hrun & Hpos)].
  exists s', out'. split; [exact Hrun|]. intros v. apply Hpos.
Defined.

Lemma boundary_within_center_temperature_witness :
  let self := init_state 100 1e-12 in
  (0 < length (time self))%nat /\ longueur self <> 0
  /\ exists (s' : Evolution) (out' : Stdout),
       run fsolve_stalled self [] = (Ok s', out')
       /\ forall Tc Tb : R,
            getitem (Tis_center s') 998 = Ok Tc ->
            getitem (Tcmb s') 998 = Ok Tb ->
            Rabs Tb <= Rabs Tc.
Proof.
  intros self.
  assert (HN : (0 < length (time self))%nat)
    by (unfold self; rewrite length_time_init; lia).
  assert (HL : longueur self <> 0) by (unfold self; init_constants).
  split_and!; [exact HN | exact HL |].
  destruct (boundary_within_center_temperature fsolve_stalled self [] HN HL)
    as (s' & out' & Hrun & Hle).
  unfold self in Hle. rewrite length_time_init in Hle.
  exists s', out'. split; [exact Hrun|].
  intros Tc Tb. apply Hle. lia.
Defined.
